(** * ToDoList-Website: a shallow embedding of [main.py] and [forms.py]

    The Flask application keeps two tables ([users], [todolist]) and, per
    client, a signed session cookie holding the id of the logged-in user.
    Each view function is embedded as a function from the world it sees
    (database and session) to an outcome (new world, flashed notices,
    response).  The library calls the views make (SQLAlchemy queries,
    Flask-Login, WTForms field data, werkzeug.security) are embedded next to
    them, with the PBKDF2 primitive itself left as a parameter.  The secret
    key is taken to be set, so that the session and [flash] are available.
    Strings are byte strings (UTF-8). *)

From Stdlib Require Import String Ascii List Bool Arith Lia NArith.
From Stdlib Require Import Decimal DecimalString DecimalPos DecimalN.
Import ListNotations.
Open Scope string_scope.

(** ** Exceptions and the error monad

    A Python call either returns or raises; a view that lets an exception
    escape answers with a server error. *)

Inductive Exception : Set :=
| AttributeError
| ValueError
| IntegrityError
| UnmappedInstanceError.

Inductive Result (A : Type) : Type :=
| Ok (a : A)
| Raise (e : Exception).
Arguments Ok {A} a.
Arguments Raise {A} e.

Definition bind {A B : Type} (r : Result A) (k : A -> Result B) : Result B :=
  match r with
  | Ok a => k a
  | Raise e => Raise e
  end.

Notation "x <- r ;; k" := (bind r (fun x => k))
  (at level 61, r at next level, right associativity).

(** ** Python string operations used by werkzeug.security *)

(** [s.split(sep)] for a one-character separator ([maxsplit = None]) and
    [s.split(sep, k)] ([maxsplit = Some k]). *)
Fixpoint str_split (sep : ascii) (maxsplit : option nat) (s : string) : list string :=
  match s with
  | EmptyString => [EmptyString]
  | String c rest =>
      if Ascii.eqb c sep then
        match maxsplit with
        | Some 0 => [s]
        | Some (S k) => EmptyString :: str_split sep (Some k) rest
        | None => EmptyString :: str_split sep None rest
        end
      else
        match str_split sep maxsplit rest with
        | [] => [String c EmptyString]
        | hd :: tl => String c hd :: tl
        end
  end.

(** [c in s] *)
Fixpoint str_contains (c : ascii) (s : string) : bool :=
  match s with
  | EmptyString => false
  | String c' rest => Ascii.eqb c' c || str_contains c rest
  end.

(** [str(n)] / ["%d" % n] for a non-negative integer. *)
Definition str_of_int (n : N) : string :=
  NilEmpty.string_of_uint (N.to_uint n).

(** [int(s)] on plain decimal literals; anything else is a [ValueError]. *)
Definition int_of_str (s : string) : Result N :=
  match s with
  | EmptyString => Raise ValueError
  | _ =>
      match NilEmpty.uint_of_string s with
      | Some d => Ok (N.of_uint d)
      | None => Raise ValueError
      end
  end.

(** [c.isdigit()] on ASCII. *)
Definition isdigit (c : ascii) : bool :=
  existsb (Ascii.eqb c) (list_ascii_of_string "0123456789").

Definition dollar : ascii := "$"%char.
Definition colon : ascii := ":"%char.

(** ** werkzeug.security *)

(** [SALT_CHARS]: the alphabet [gen_salt] draws from. *)
Definition SALT_CHARS : list ascii :=
  list_ascii_of_string
    "abcdefghijklmnopqrstuvwxyzABCDEFGHIJKLMNOPQRSTUVWXYZ0123456789".

(** [secrets.choice(SALT_CHARS)], the draw being supplied by the caller. *)
Definition choice (draw : nat) : ascii :=
  nth (draw mod length SALT_CHARS) SALT_CHARS "a"%char.

(** [gen_salt(length)]: [length] independent draws; [rnd i] is the i-th
    draw of the system random source during this call. *)
Fixpoint gen_salt_from (rnd : nat -> nat) (i length : nat) : string :=
  match length with
  | 0 => EmptyString
  | S k => String (choice (rnd i)) (gen_salt_from rnd (S i) k)
  end.

Definition gen_salt (rnd : nat -> nat) (length : nat) : string :=
  gen_salt_from rnd 0 length.

(** ** forms.py: WTForms field data and the declared validators *)

(** The submitted form: the (name, value) pairs of the request body. *)
Definition Form : Type := list (string * string).

(** [field.data] of a [StringField] (also [EmailField], [PasswordField])
    bound to the submitted form: the first value sent under the field's
    name, or [None] when the request carries no such field (WTForms 3,
    the release line whose top-level package exports [EmailField] as
    [forms.py] imports it). *)
Definition field_data (name : string) (formdata : Form) : option string :=
  match filter (fun kv => String.eqb (fst kv) name) formdata with
  | [] => None
  | kv :: _ => Some (snd kv)
  end.

(** ASCII characters [str.strip()] removes. *)
Definition isspace (c : ascii) : bool :=
  let n := nat_of_ascii c in
  (Nat.leb 9 n && Nat.leb n 13) || (Nat.leb 28 n && Nat.leb n 32).

Fixpoint str_forallb (p : ascii -> bool) (s : string) : bool :=
  match s with
  | EmptyString => true
  | String c rest => p c && str_forallb p rest
  end.

(** [DataRequired()]: the data is truthy and, for a string, not blank
    after [strip()]. *)
Definition DataRequired (data : option string) : bool :=
  match data with
  | None => false
  | Some s => negb (str_forallb isspace s)
  end.

(** The fields each form class declares, every one with
    [validators=[DataRequired()]]. *)
Definition RegisterForm : list string :=
  ["first_name"; "last_name"; "email"; "password"].
Definition LoginForm : list string := ["email"; "password"].
Definition ToDoListForm : list string := ["content"; "date"].

(** [form.validate()] restricted to the declared validators. *)
Definition validate (fields : list string) (formdata : Form) : bool :=
  forallb (fun name => DataRequired (field_data name formdata)) fields.

(** ** The tables *)

Module User.
Record t : Set := mk {
  id : nat;
  email : string;
  password : string;
  first_name : string;
  last_name : string
}.
End User.

Module ToDoList.
(** [author_id] is only ever written from [current_user.id]. *)
Record t : Set := mk {
  id : nat;
  content : string;
  date : string;
  author_id : nat
}.
End ToDoList.

(** Rows are kept in insertion order. *)
Record Database : Set := mkDatabase {
  users : list User.t;
  todolist : list ToDoList.t
}.

Definition empty_db : Database := mkDatabase [] [].

(** The id SQLite gives a new row of an [INTEGER PRIMARY KEY] table: one
    more than the largest id in use. *)
Definition next_rowid (ids : list nat) : nat := S (list_max ids).

(** [.first()] *)
Definition first {A : Type} (rows : list A) : option A := hd_error rows.

(** [User.query.filter_by(email=e)]; no row has a NULL email, so a [None]
    argument selects nothing. *)
Definition User_filter_by_email (d : Database) (e : option string) : list User.t :=
  match e with
  | None => []
  | Some e => filter (fun u => String.eqb (User.email u) e) (users d)
  end.

(** [User.query.get(id)] *)
Definition User_get (d : Database) (id : nat) : option User.t :=
  find (fun u => Nat.eqb (User.id u) id) (users d).

(** [ToDoList.query.get(id)] *)
Definition ToDoList_get (d : Database) (id : nat) : option ToDoList.t :=
  find (fun t => Nat.eqb (ToDoList.id t) id) (todolist d).

(** [ToDoList.query.filter_by(author_id=uid)] *)
Definition ToDoList_filter_by_author_id (d : Database) (uid : nat) : list ToDoList.t :=
  filter (fun t => Nat.eqb (ToDoList.author_id t) uid) (todolist d).

(** [db.session.add(User(...)); db.session.commit()]: every column is
    [nullable=False] and [email] is [unique=True]; a violated constraint
    raises and leaves the table as it was. *)
Definition add_commit_User (d : Database)
    (first_name last_name email password : option string)
  : Result (Database * User.t) :=
  match first_name, last_name, email, password with
  | Some fn, Some ln, Some e, Some p =>
      if existsb (fun u => String.eqb (User.email u) e) (users d)
      then Raise IntegrityError
      else
        let new_user := User.mk (next_rowid (map User.id (users d))) e p fn ln in
        Ok (mkDatabase (users d ++ [new_user]) (todolist d), new_user)
  | _, _, _, _ => Raise IntegrityError
  end.

(** [db.session.add(ToDoList(...)); db.session.commit()]: [content] and
    [date] are [nullable=False]. *)
Definition add_commit_ToDoList (d : Database)
    (content date : option string) (author_id : nat)
  : Result (Database * ToDoList.t) :=
  match content, date with
  | Some c, Some dt =>
      let item := ToDoList.mk (next_rowid (map ToDoList.id (todolist d))) c dt author_id in
      Ok (mkDatabase (users d) (todolist d ++ [item]), item)
  | _, _ => Raise IntegrityError
  end.

(** [db.session.delete(item); db.session.commit()]: deleting [None]
    raises; deleting a row removes the row with its primary key. *)
Definition delete_commit_ToDoList (d : Database) (item : option ToDoList.t)
  : Result Database :=
  match item with
  | None => Raise UnmappedInstanceError
  | Some t =>
      Ok (mkDatabase (users d)
            (filter (fun x => negb (Nat.eqb (ToDoList.id x) (ToDoList.id t)))
                    (todolist d)))
  end.

(** ** Flask-Login *)

(** What a view sees: the database and the requesting client's session,
    which holds the logged-in user's id or nothing. *)
Record World : Set := mkWorld {
  db : Database;
  session : option nat
}.

(** [@login_manager.user_loader] *)
Definition load_user (d : Database) (user_id : nat) : option User.t :=
  User_get d user_id.

(** [current_user]: the loaded user, or [None] for the anonymous user. *)
Definition current_user (w : World) : option User.t :=
  match session w with
  | Some user_id => load_user (db w) user_id
  | None => None
  end.

Definition login_user (user : User.t) (w : World) : World :=
  mkWorld (db w) (Some (User.id user)).

Definition logout_user (w : World) : World :=
  mkWorld (db w) None.

(** ** Responses *)

Inductive Method : Set := GET | POST.

Inductive Response : Type :=
| redirect (endpoint : string)
| render_template (template : string) (current_user : option User.t)
                  (toDoListItems : list ToDoList.t)
| abort (code : nat)
| server_error (e : Exception).

(** The result of handling one request: the world afterwards, the notices
    passed to [flash], and the response. *)
Record Outcome : Type := mkOutcome {
  world : World;
  flashed : list string;
  response : Response
}.

(** An exception escaping a view: nothing was committed. *)
Definition crash (w : World) (e : Exception) : Outcome :=
  mkOutcome w [] (server_error e).

(** [NoDup] of a list of distinct literals. *)
Ltac distinct := repeat (constructor; [simpl; intuition congruence|]); constructor.

(** ** werkzeug.security: hashing and checking *)

Section Website.

(** [hashlib.pbkdf2_hmac(hash_name, password, salt, iterations).hex()] *)
Variable pbkdf2_hmac : string -> string -> string -> N -> string.

(** The iteration count werkzeug uses when the method names none. *)
Variable DEFAULT_PBKDF2_ITERATIONS : N.

(** [_hash_internal(method, salt, password)]: the digest and the fully
    spelled-out method.  [password] is [None] when the caller passed
    Python's [None], whose [.encode()] raises.  Only the [pbkdf2] family,
    the one [main.py] selects, is embedded; any other method name is
    rejected. *)
Definition _hash_internal (method salt : string) (password : option string)
  : Result (string * string) :=
  match password with
  | None => Raise AttributeError
  | Some pw =>
      match str_split colon None method with
      | "pbkdf2" :: args =>
          sel <- match args with
                 | [] => Ok ("sha256", DEFAULT_PBKDF2_ITERATIONS)
                 | [hash_name] => Ok (hash_name, DEFAULT_PBKDF2_ITERATIONS)
                 | [hash_name; iters] =>
                     n <- int_of_str iters ;; Ok (hash_name, n)
                 | _ => Raise ValueError
                 end ;;
          let '(hash_name, iterations) := sel in
          Ok (pbkdf2_hmac hash_name pw salt iterations,
              "pbkdf2:" ++ hash_name ++ ":" ++ str_of_int iterations)
      | _ => Raise ValueError
      end
  end.

(** [generate_password_hash(password, method, salt_length)]:
    ["method$salt$hash"]. *)
Definition generate_password_hash (rnd : nat -> nat)
    (password : option string) (method : string) (salt_length : nat)
  : Result string :=
  let salt := gen_salt rnd salt_length in
  r <- _hash_internal method salt password ;;
  let '(h, actual_method) := r in
  Ok (actual_method ++ "$" ++ salt ++ "$" ++ h).

(** [check_password_hash(pwhash, password)]: [False] when [pwhash] does
    not have three [$]-separated parts, otherwise the comparison of the
    recomputed digest with the stored one. *)
Definition check_password_hash (pwhash : string) (password : option string)
  : Result bool :=
  match str_split dollar (Some 2) pwhash with
  | [method; salt; hashval] =>
      r <- _hash_internal method salt password ;;
      Ok (String.eqb (fst r) hashval)
  | _ => Ok false
  end.

(** The token [generate_password_hash(pw, 'pbkdf2:sha256', 8)] evaluates to
    for a string [pw]: see [generate_password_hash_Some]. *)
Definition password_token (rnd : nat -> nat) (pw : string) : string :=
  ("pbkdf2:sha256:" ++ str_of_int DEFAULT_PBKDF2_ITERATIONS)
  ++ "$" ++ gen_salt rnd 8
  ++ "$" ++ pbkdf2_hmac "sha256" pw (gen_salt rnd 8) DEFAULT_PBKDF2_ITERATIONS.

(** ** main.py: the views *)

(** [@app.errorhandler(401)] *)
Definition custom_401 (w : World) : Outcome :=
  mkOutcome w ["Please Login"] (redirect "login").

(** [@login_required]: an anonymous request never reaches the view;
    Flask-Login aborts it with 401. *)
Definition login_required (view : World -> Outcome) (w : World) : Outcome :=
  match current_user w with
  | Some _ => view w
  | None => mkOutcome w [] (abort 401)
  end.

(** [home()] *)
Definition home (method : Method) (formdata : Form) (w : World) : Outcome :=
  match current_user w with
  | None => crash w AttributeError
  | Some cu =>
      let toDoListItems := ToDoList_filter_by_author_id (db w) (User.id cu) in
      match method with
      | POST =>
          match add_commit_ToDoList (db w)
                  (field_data "content" formdata)
                  (field_data "date" formdata)
                  (User.id cu) with
          | Ok (d', _) => mkOutcome (mkWorld d' (session w)) [] (redirect "home")
          | Raise e => crash w e
          end
      | GET =>
          mkOutcome w [] (render_template "index.html" (Some cu) toDoListItems)
      end
  end.

(** [register()]; [rnd] is the random source [gen_salt] draws from. *)
Definition register (rnd : nat -> nat) (method : Method) (formdata : Form)
    (w : World) : Outcome :=
  match method with
  | POST =>
      match first (User_filter_by_email (db w) (field_data "email" formdata)) with
      | Some _ =>
          mkOutcome w
            ["The provided email already exists, please login instead"]
            (redirect "login")
      | None =>
          match
            pwhash <- generate_password_hash rnd
                        (field_data "password" formdata) "pbkdf2:sha256" 8 ;;
            add_commit_User (db w)
              (field_data "first_name" formdata)
              (field_data "last_name" formdata)
              (field_data "email" formdata)
              (Some pwhash)
          with
          | Ok (d', new_user) =>
              mkOutcome (login_user new_user (mkWorld d' (session w))) []
                (redirect "home")
          | Raise e => crash w e
          end
      end
  | GET => mkOutcome w [] (render_template "register.html" (current_user w) [])
  end.

(** [login()] *)
Definition login (method : Method) (formdata : Form) (w : World) : Outcome :=
  let page := render_template "login.html" (current_user w) [] in
  match method with
  | POST =>
      let email := field_data "email" formdata in
      let password := field_data "password" formdata in
      match first (User_filter_by_email (db w) email) with
      | Some user =>
          match check_password_hash (User.password user) password with
          | Ok true => mkOutcome (login_user user w) [] (redirect "home")
          | Ok false =>
              mkOutcome w ["Password enter is incorrect. Please try again."] page
          | Raise e => crash w e
          end
      | None =>
          mkOutcome w ["Please register to use our services"]
            (redirect "register")
      end
  | GET => mkOutcome w [] page
  end.

(** [logout()] *)
Definition logout (w : World) : Outcome :=
  mkOutcome (logout_user w) [] (redirect "home").

(** [deleteToDoListItem(item_id)] *)
Definition deleteToDoListItem (item_id : nat) (w : World) : Outcome :=
  let item_to_delete := ToDoList_get (db w) item_id in
  match delete_commit_ToDoList (db w) item_to_delete with
  | Ok d' => mkOutcome (mkWorld d' (session w)) [] (redirect "home")
  | Raise e => crash w e
  end.

(** ** Routing *)

(** The URL rules of [@app.route]. *)
Inductive Rule : Set :=
| url_home
| url_register
| url_login
| url_logout
| url_deleteToDoListItem (item_id : nat).

Record Request : Type := mkRequest {
  req_url : Rule;
  req_method : Method;
  req_form : Form;
  req_random : nat -> nat
}.

(** The view bound to the rule, behind its decorators; [/logout] and
    [/deleteToDoListItem/<id>] accept GET only. *)
Definition dispatch_request (rq : Request) (w : World) : Outcome :=
  match req_url rq, req_method rq with
  | url_home, m => login_required (home m (req_form rq)) w
  | url_register, m => register (req_random rq) m (req_form rq) w
  | url_login, m => login m (req_form rq) w
  | url_logout, GET => logout w
  | url_deleteToDoListItem item_id, GET =>
      login_required (deleteToDoListItem item_id) w
  | _, POST => mkOutcome w [] (abort 405)
  end.

(** An aborted request goes through the registered error handler. *)
Definition full_dispatch_request (rq : Request) (w : World) : Outcome :=
  let out := dispatch_request rq w in
  match response out with
  | abort code =>
      if Nat.eqb code 401 then
        let h := custom_401 (world out) in
        mkOutcome (world h) (flashed out ++ flashed h) (response h)
      else out
  | _ => out
  end.

(** ** The server over several clients

    Each client keeps its own session cookie; all share the database. *)
Record Server : Type := mkServer {
  store : Database;
  cookies : nat -> option nat
}.

Definition serve (sv : Server) (client : nat) (rq : Request) : Server * Outcome :=
  let out := full_dispatch_request rq (mkWorld (store sv) (cookies sv client)) in
  (mkServer (db (world out))
     (fun c => if Nat.eqb c client then session (world out) else cookies sv c),
   out).

Fixpoint run (sv : Server) (trace : list (nat * Request)) : Server :=
  match trace with
  | [] => sv
  | (client, rq) :: rest => run (fst (serve sv client rq)) rest
  end.

(** ** Notices and rows named in the statements *)

Definition duplicate_notice : string :=
  "The provided email already exists, please login instead".

(** The row a successful registration inserts: see [register_POST_fresh]. *)
Definition registered_user (d : Database) (rnd : nat -> nat)
    (fn ln e pw : string) : User.t :=
  User.mk (next_rowid (map User.id (users d))) e (password_token rnd pw) fn ln.

(** ** Concrete requests, for running the views

    A stand-in digest (not a hash: it only has to be computable), the
    iteration count of werkzeug 3.0, a constant random source and a few
    forms and rows. *)

Definition example_pbkdf2_hmac (hash_name pw salt : string) (iterations : N)
  : string :=
  hash_name ++ "(" ++ salt ++ "," ++ pw ++ ")".

Definition example_iterations : N := 600000.

Definition no_random : nat -> nat := fun _ => 0.

Definition alice_form : Form :=
  [("first_name", "Alice"); ("last_name", "Liddell");
   ("email", "alice@x.com"); ("password", "pw1")].

Definition alice_login_form : Form :=
  [("email", "alice@x.com"); ("password", "pw1")].

Definition alice : User.t :=
  User.mk 1 "alice@x.com" "pbkdf2:sha256:600000$aaaaaaaa$sha256(aaaaaaaa,pw1)"
    "Alice" "Liddell".

Definition bob : User.t :=
  User.mk 2 "bob@x.com" "pbkdf2:sha256:600000$aaaaaaaa$sha256(aaaaaaaa,pw2)"
    "Bob" "Builder".

Definition milk : ToDoList.t := ToDoList.mk 1 "Buy milk" "2024-01-01" 1.
Definition bread : ToDoList.t := ToDoList.mk 2 "Buy bread" "2024-01-02" 1.

Definition example_db : Database := mkDatabase [alice; bob] [milk; bread].

(** ** Table constraints

    What the schema declares: [primary_key=True] on both [id] columns and
    [unique=True] on [users.email]. *)

Definition unique_emails (d : Database) : Prop :=
  NoDup (map User.email (users d)).

Definition unique_user_ids (d : Database) : Prop :=
  NoDup (map User.id (users d)).

Definition unique_task_ids (d : Database) : Prop :=
  NoDup (map ToDoList.id (todolist d)).

(** Every stored [password] was written by [register]: it is a token of
    [generate_password_hash]. *)
Definition hashed_passwords (d : Database) : Prop :=
  forall u, In u (users d) ->
            exists rnd pw, User.password u = password_token rnd pw.

(** ** Reference integrity

    [author_id] is declared [db.ForeignKey("users.id")]: every task row
    names the id of a row of [users]. *)
Definition authors_exist (d : Database) : Prop :=
  forall t, In t (todolist d) ->
            In (ToDoList.author_id t) (map User.id (users d)).

(** * Properties *)

(** ** Splitting *)

Lemma str_split_no_sep (sep : ascii) (maxsplit : option nat) (s : string) :
  str_contains sep s = false -> str_split sep maxsplit s = [s].
Proof.
  induction s as [|c rest IH]; simpl; intros H; [reflexivity|].
  apply orb_false_iff in H. destruct H as [Hc Hrest].
  rewrite Hc, (IH Hrest). reflexivity.
Qed.

Lemma str_split_zero (sep : ascii) (s : string) :
  str_split sep (Some 0) s = [s].
Proof.
  induction s as [|c rest IH]; simpl; [reflexivity|].
  destruct (Ascii.eqb c sep); [reflexivity|]. rewrite IH. reflexivity.
Qed.

Lemma str_split_app_Some (sep : ascii) (k : nat) (a b : string) :
  str_contains sep a = false ->
  str_split sep (Some (S k)) (a ++ String sep b) = a :: str_split sep (Some k) b.
Proof.
  induction a as [|c rest IH]; simpl; intros H.
  - rewrite Ascii.eqb_refl. reflexivity.
  - apply orb_false_iff in H. destruct H as [Hc Hrest].
    rewrite Hc, (IH Hrest). reflexivity.
Qed.

Lemma str_split_app_None (sep : ascii) (a b : string) :
  str_contains sep a = false ->
  str_split sep None (a ++ String sep b) = a :: str_split sep None b.
Proof.
  induction a as [|c rest IH]; simpl; intros H.
  - rewrite Ascii.eqb_refl. reflexivity.
  - apply orb_false_iff in H. destruct H as [Hc Hrest].
    rewrite Hc, (IH Hrest). reflexivity.
Qed.

Lemma str_contains_app (c : ascii) (a b : string) :
  str_contains c (a ++ b) = str_contains c a || str_contains c b.
Proof.
  induction a as [|x rest IH]; simpl; [reflexivity|].
  rewrite IH. apply orb_assoc.
Qed.

(** ** Decimal literals *)

Lemma string_of_uint_digits (d : uint) :
  str_forallb isdigit (NilEmpty.string_of_uint d) = true.
Proof.
  induction d; simpl; try rewrite IHd; reflexivity.
Qed.

Lemma str_forallb_contains (p : ascii -> bool) (c : ascii) (s : string) :
  p c = false -> str_forallb p s = true -> str_contains c s = false.
Proof.
  intros Hc. induction s as [|x rest IH]; simpl; [reflexivity|].
  intros H. apply andb_true_iff in H. destruct H as [Hx Hrest].
  rewrite (IH Hrest), orb_false_r.
  destruct (Ascii.eqb_spec x c) as [->|]; [congruence | reflexivity].
Qed.

Lemma str_of_int_no (c : ascii) (n : N) :
  isdigit c = false -> str_contains c (str_of_int n) = false.
Proof.
  intros Hc. apply (str_forallb_contains isdigit); [exact Hc|].
  apply string_of_uint_digits.
Qed.

Lemma str_of_int_nonempty (n : N) : str_of_int n <> EmptyString.
Proof.
  unfold str_of_int. destruct n as [|p]; simpl; [discriminate|].
  pose proof (Unsigned.to_uint_nonnil p) as Hp.
  destruct (Pos.to_uint p); simpl; [congruence | discriminate ..].
Qed.

Lemma int_of_str_of_int (n : N) : int_of_str (str_of_int n) = Ok n.
Proof.
  unfold int_of_str. pose proof (str_of_int_nonempty n) as Hne.
  destruct (str_of_int n) eqn:E; [congruence|].
  rewrite <- E. unfold str_of_int.
  rewrite NilEmpty.usu, DecimalN.Unsigned.of_to. reflexivity.
Qed.

(** ** Salts *)

Lemma choice_in_SALT_CHARS (draw : nat) : In (choice draw) SALT_CHARS.
Proof.
  unfold choice. apply nth_In. apply Nat.mod_upper_bound. discriminate.
Qed.

Lemma choice_alnum (draw : nat) (c : ascii) :
  forallb (fun x => negb (Ascii.eqb x c)) SALT_CHARS = true ->
  Ascii.eqb (choice draw) c = false.
Proof.
  intros H. rewrite forallb_forall in H.
  apply negb_true_iff, H, choice_in_SALT_CHARS.
Qed.

Lemma gen_salt_from_no (rnd : nat -> nat) (c : ascii) (length i : nat) :
  forallb (fun x => negb (Ascii.eqb x c)) SALT_CHARS = true ->
  str_contains c (gen_salt_from rnd i length) = false.
Proof.
  intros H. revert i. induction length as [|k IH]; intros i; simpl; [reflexivity|].
  rewrite (choice_alnum _ _ H), IH. reflexivity.
Qed.

Lemma gen_salt_no_dollar (rnd : nat -> nat) (length : nat) :
  str_contains dollar (gen_salt rnd length) = false.
Proof. apply gen_salt_from_no. reflexivity. Qed.


(** ** Hashing and checking *)

Lemma hash_internal_default (salt pw : string) :
  _hash_internal "pbkdf2:sha256" salt (Some pw)
  = Ok (pbkdf2_hmac "sha256" pw salt DEFAULT_PBKDF2_ITERATIONS,
        "pbkdf2:sha256:" ++ str_of_int DEFAULT_PBKDF2_ITERATIONS).
Proof. reflexivity. Qed.

Lemma hash_internal_actual (n : N) (salt pw : string) :
  _hash_internal ("pbkdf2:sha256:" ++ str_of_int n) salt (Some pw)
  = Ok (pbkdf2_hmac "sha256" pw salt n, "pbkdf2:sha256:" ++ str_of_int n).
Proof.
  unfold _hash_internal.
  change ("pbkdf2:sha256:" ++ str_of_int n)
    with ("pbkdf2" ++ String colon ("sha256" ++ String colon (str_of_int n))).
  rewrite str_split_app_None by reflexivity.
  rewrite str_split_app_None by reflexivity.
  rewrite str_split_no_sep by (apply str_of_int_no; reflexivity).
  simpl. rewrite int_of_str_of_int. reflexivity.
Qed.

Lemma generate_password_hash_Some (rnd : nat -> nat) (pw : string) :
  generate_password_hash rnd (Some pw) "pbkdf2:sha256" 8
  = Ok (password_token rnd pw).
Proof. reflexivity. Qed.

Lemma generate_password_hash_None (rnd : nat -> nat) (method : string) (k : nat) :
  generate_password_hash rnd None method k = Raise AttributeError.
Proof. reflexivity. Qed.

Lemma password_token_split (rnd : nat -> nat) (pw : string) :
  str_split dollar (Some 2) (password_token rnd pw)
  = [ "pbkdf2:sha256:" ++ str_of_int DEFAULT_PBKDF2_ITERATIONS;
      gen_salt rnd 8;
      pbkdf2_hmac "sha256" pw (gen_salt rnd 8) DEFAULT_PBKDF2_ITERATIONS ].
Proof.
  unfold password_token.
  change (?m ++ "$" ++ ?s ++ "$" ++ ?h)
    with (m ++ String dollar (s ++ String dollar h)).
  rewrite str_split_app_Some.
  2:{ rewrite str_contains_app. rewrite str_of_int_no by reflexivity. reflexivity. }
  rewrite str_split_app_Some by apply gen_salt_no_dollar.
  rewrite str_split_zero. reflexivity.
Qed.

Lemma check_password_token (rnd : nat -> nat) (pw guess : string) :
  check_password_hash (password_token rnd pw) (Some guess)
  = Ok (String.eqb
          (pbkdf2_hmac "sha256" guess (gen_salt rnd 8) DEFAULT_PBKDF2_ITERATIONS)
          (pbkdf2_hmac "sha256" pw (gen_salt rnd 8) DEFAULT_PBKDF2_ITERATIONS)).
Proof.
  unfold check_password_hash. rewrite password_token_split.
  rewrite hash_internal_actual. reflexivity.
Qed.


Lemma check_hashed_password_returns (d : Database) (user : User.t) (guess : string) :
  hashed_passwords d -> In user (users d) ->
  exists b, check_password_hash (User.password user) (Some guess) = Ok b.
Proof.
  intros H Hin. destruct (H user Hin) as [rnd [pw ->]].
  rewrite check_password_token. eexists. reflexivity.
Qed.

(** ** Queries *)

Lemma User_get_In (d : Database) (id : nat) (u : User.t) :
  User_get d id = Some u -> In u (users d) /\ User.id u = id.
Proof.
  unfold User_get. intros H. apply find_some in H.
  destruct H as [Hin Heq]. apply Nat.eqb_eq in Heq. split; assumption.
Qed.

Lemma User_get_exists (d : Database) (u : User.t) :
  In u (users d) -> exists u', User_get d (User.id u) = Some u'.
Proof.
  unfold User_get. intros Hin.
  destruct (find (fun x => Nat.eqb (User.id x) (User.id u)) (users d)) as [u'|] eqn:E.
  - exists u'. reflexivity.
  - apply (find_none _ _ E) in Hin. rewrite Nat.eqb_refl in Hin. discriminate.
Qed.

Lemma first_filter_In {A : Type} (p : A -> bool) (l : list A) (x : A) :
  first (filter p l) = Some x -> In x l /\ p x = true.
Proof.
  intros H. apply filter_In. destruct (filter p l) as [|y rest]; simpl in H.
  - discriminate.
  - injection H as ->. left. reflexivity.
Qed.

Lemma first_filter_by_email_In (d : Database) (e : option string) (u : User.t) :
  first (User_filter_by_email d e) = Some u ->
  In u (users d) /\ e = Some (User.email u).
Proof.
  destruct e as [e|]; simpl; [|discriminate].
  intros H. apply first_filter_In in H. destruct H as [Hin Heq].
  apply String.eqb_eq in Heq. subst e. split; [assumption | reflexivity].
Qed.

Lemma ToDoList_get_None (d : Database) (id : nat) :
  ToDoList_get d id = None <-> ~ In id (map ToDoList.id (todolist d)).
Proof.
  unfold ToDoList_get. split.
  - intros H Hin. apply in_map_iff in Hin. destruct Hin as [t [Hid Hin]].
    apply (find_none _ _ H) in Hin. rewrite Hid, Nat.eqb_refl in Hin. discriminate.
  - intros H. destruct (find _ _) as [t|] eqn:E; [|reflexivity].
    apply find_some in E. destruct E as [Hin Heq]. apply Nat.eqb_eq in Heq.
    exfalso. apply H. rewrite <- Heq. apply in_map. assumption.
Qed.

Lemma ToDoList_get_Some (d : Database) (t : ToDoList.t) :
  In t (todolist d) ->
  exists t', ToDoList_get d (ToDoList.id t) = Some t' /\ ToDoList.id t' = ToDoList.id t.
Proof.
  unfold ToDoList_get. intros Hin.
  destruct (find (fun x => Nat.eqb (ToDoList.id x) (ToDoList.id t)) (todolist d))
    as [t'|] eqn:E.
  - exists t'. split; [reflexivity|]. apply find_some in E. apply Nat.eqb_eq, E.
  - apply (find_none _ _ E) in Hin. rewrite Nat.eqb_refl in Hin. discriminate.
Qed.

Lemma filter_by_author_id_In (d : Database) (uid : nat) (t : ToDoList.t) :
  In t (ToDoList_filter_by_author_id d uid)
  <-> In t (todolist d) /\ ToDoList.author_id t = uid.
Proof.
  unfold ToDoList_filter_by_author_id. rewrite filter_In, Nat.eqb_eq. reflexivity.
Qed.

Lemma NoDup_map_id_eq {A : Type} (f : A -> nat) (l : list A) (x y : A) :
  NoDup (map f l) -> In x l -> In y l -> f x = f y -> x = y.
Proof.
  induction l as [|a l IH]; simpl; intros Hnd Hx Hy Hf; [contradiction|].
  inversion Hnd as [|? ? Hnotin Hnd']; subst.
  destruct Hx as [->|Hx], Hy as [->|Hy].
  - reflexivity.
  - exfalso. apply Hnotin. rewrite Hf. apply in_map. assumption.
  - exfalso. apply Hnotin. rewrite <- Hf. apply in_map. assumption.
  - apply IH; assumption.
Qed.

(** ** The login gate *)

Lemma login_required_anonymous (view : World -> Outcome) (w : World) :
  current_user w = None -> login_required view w = mkOutcome w [] (abort 401).
Proof. unfold login_required. intros ->. reflexivity. Qed.

Lemma login_required_authenticated (view : World -> Outcome) (w : World) (u : User.t) :
  current_user w = Some u -> login_required view w = view w.
Proof. unfold login_required. intros ->. reflexivity. Qed.

Lemma home_GET (w : World) (u : User.t) (formdata : Form) (rnd : nat -> nat) :
  current_user w = Some u ->
  full_dispatch_request (mkRequest url_home GET formdata rnd) w
  = mkOutcome w []
      (render_template "index.html" (Some u)
         (ToDoList_filter_by_author_id (db w) (User.id u))).
Proof.
  intros H. unfold full_dispatch_request, dispatch_request; simpl.
  rewrite (login_required_authenticated _ _ _ H). unfold home. rewrite H.
  reflexivity.
Qed.

(** C10. [/logout] is not behind the login gate: from any session state,
    anonymous or not, it answers with a redirect to [home], leaves the
    session anonymous and leaves both tables as they were. *)
Theorem logout_from_any_session (w : World) (formdata : Form) (rnd : nat -> nat) :
  let out := full_dispatch_request (mkRequest url_logout GET formdata rnd) w in
  out = mkOutcome (mkWorld (db w) None) [] (redirect "home")
  /\ session (world out) = None
  /\ current_user (world out) = None
  /\ users (db (world out)) = users (db w)
  /\ todolist (db (world out)) = todolist (db w).
Proof. repeat split. Qed.


(** ** Logging in *)

Lemma full_dispatch_no_abort (rq : Request) (w : World) :
  (forall code, response (dispatch_request rq w) <> abort code) ->
  full_dispatch_request rq w = dispatch_request rq w.
Proof.
  intros H. unfold full_dispatch_request.
  destruct (response (dispatch_request rq w)) as [| |code|] eqn:E; try reflexivity.
  exfalso. apply (H code). reflexivity.
Qed.

Lemma login_no_abort (m : Method) (formdata : Form) (w : World) (code : nat) :
  response (login m formdata w) <> abort code.
Proof.
  unfold login. destruct m; [discriminate|].
  destruct (first _) as [user|]; [|discriminate].
  destruct (check_password_hash _ _) as [[|]|]; discriminate.
Qed.

Lemma full_dispatch_login (m : Method) (formdata : Form) (rnd : nat -> nat) (w : World) :
  full_dispatch_request (mkRequest url_login m formdata rnd) w = login m formdata w.
Proof.
  rewrite full_dispatch_no_abort; [reflexivity|].
  intros code. apply login_no_abort.
Qed.

Lemma login_POST_redirect_home (w : World) (formdata : Form) :
  response (login POST formdata w) = redirect "home" ->
  exists user,
    first (User_filter_by_email (db w) (field_data "email" formdata)) = Some user
    /\ check_password_hash (User.password user) (field_data "password" formdata)
       = Ok true
    /\ login POST formdata w = mkOutcome (login_user user w) [] (redirect "home").
Proof.
  unfold login.
  destruct (first (User_filter_by_email (db w) (field_data "email" formdata)))
    as [user|]; [|discriminate].
  destruct (check_password_hash (User.password user)
              (field_data "password" formdata)) as [[|]|e] eqn:E;
    simpl; try discriminate.
  intros _. exists user. split; [reflexivity|]. split; [exact E | reflexivity].
Qed.

Lemma current_user_login_user (w : World) (user : User.t) :
  In user (users (db w)) ->
  exists u, current_user (login_user user w) = Some u /\ User.id u = User.id user.
Proof.
  intros Hin. unfold current_user, login_user, load_user; simpl.
  destruct (User_get_exists _ _ Hin) as [u Hu]. exists u. split; [assumption|].
  apply User_get_In in Hu. apply Hu.
Qed.

(** C7. While the session is anonymous, a request to a protected route
    ([/home] by GET or POST, [/deleteToDoListItem/<id>]) never reaches its
    view: whatever the view is, the gate answers 401, which the error
    handler turns into the notice "Please Login" and a redirect to
    [login], with the world unchanged.  If a login POST then succeeds
    (it answers with the redirect to [home]), a GET of [/home] in the
    resulting session renders the task page. *)
Theorem anonymous_request_intercepted (w : World) :
  current_user w = None ->
  (forall view, login_required view w = mkOutcome w [] (abort 401))
  /\ (forall m formdata rnd,
        full_dispatch_request (mkRequest url_home m formdata rnd) w
        = mkOutcome w ["Please Login"] (redirect "login"))
  /\ (forall item_id formdata rnd,
        full_dispatch_request
          (mkRequest (url_deleteToDoListItem item_id) GET formdata rnd) w
        = mkOutcome w ["Please Login"] (redirect "login"))
  /\ (forall formdata rnd formdata' rnd',
        let out := full_dispatch_request (mkRequest url_login POST formdata rnd) w in
        response out = redirect "home" ->
        exists user,
          full_dispatch_request (mkRequest url_home GET formdata' rnd') (world out)
          = mkOutcome (world out) []
              (render_template "index.html" (Some user)
                 (ToDoList_filter_by_author_id (db w) (User.id user)))).
Proof.
  intros Hanon. split; [|split; [|split]].
  - intros view. apply login_required_anonymous, Hanon.
  - intros m formdata rnd. unfold full_dispatch_request, dispatch_request; simpl.
    rewrite (login_required_anonymous _ _ Hanon). reflexivity.
  - intros item_id formdata rnd.
    unfold full_dispatch_request, dispatch_request; simpl.
    rewrite (login_required_anonymous _ _ Hanon). reflexivity.
  - intros formdata rnd formdata' rnd' out Hresp.
    assert (Hout : out = login POST formdata w).
    { subst out. apply full_dispatch_login. }
    rewrite Hout in Hresp |- *.
    destruct (login_POST_redirect_home _ _ Hresp) as [user [Hfirst [_ Heq]]].
    rewrite Heq; simpl.
    apply first_filter_by_email_In in Hfirst. destruct Hfirst as [Hin _].
    destruct (current_user_login_user w user Hin) as [u [Hu _]].
    exists u. rewrite (home_GET _ u _ _ Hu). reflexivity.
Qed.



(** ** Deleting and listing tasks *)

Lemma full_dispatch_delete (w : World) (caller : User.t) (t : ToDoList.t)
    (formdata : Form) (rnd : nat -> nat) :
  current_user w = Some caller ->
  In t (todolist (db w)) ->
  full_dispatch_request
    (mkRequest (url_deleteToDoListItem (ToDoList.id t)) GET formdata rnd) w
  = mkOutcome
      (mkWorld
         (mkDatabase (users (db w))
            (filter (fun x => negb (Nat.eqb (ToDoList.id x) (ToDoList.id t)))
               (todolist (db w))))
         (session w))
      [] (redirect "home").
Proof.
  intros Hauth Hin. unfold full_dispatch_request, dispatch_request; simpl.
  rewrite (login_required_authenticated _ _ _ Hauth).
  unfold deleteToDoListItem.
  destruct (ToDoList_get_Some _ _ Hin) as [t' [-> Hid]]. simpl.
  rewrite Hid. reflexivity.
Qed.

(** C2. An authenticated caller, whoever it is, deletes an existing task
    by its id: the view answers with the redirect to [home], the row with
    that id is gone from [todolist], every other row is still there, and
    the owner's next listing no longer shows the task while it still
    shows the owner's other tasks.  The caller's identity is not compared
    with the task's [author_id] anywhere. *)
Theorem delete_task_unconditional (w : World) (caller : User.t) (t : ToDoList.t)
    (formdata : Form) (rnd : nat -> nat) :
  unique_task_ids (db w) ->
  current_user w = Some caller ->
  In t (todolist (db w)) ->
  let out :=
    full_dispatch_request
      (mkRequest (url_deleteToDoListItem (ToDoList.id t)) GET formdata rnd) w in
  response out = redirect "home"
  /\ users (db (world out)) = users (db w)
  /\ session (world out) = session w
  /\ ~ In (ToDoList.id t) (map ToDoList.id (todolist (db (world out))))
  /\ (forall t', In t' (todolist (db w)) -> t' <> t ->
                 In t' (todolist (db (world out))))
  /\ (forall t', In t' (todolist (db (world out))) -> In t' (todolist (db w)))
  /\ (forall w' owner formdata' rnd',
        db w' = db (world out) ->
        current_user w' = Some owner ->
        User.id owner = ToDoList.author_id t ->
        exists items,
          full_dispatch_request (mkRequest url_home GET formdata' rnd') w'
          = mkOutcome w' [] (render_template "index.html" (Some owner) items)
          /\ ~ In t items
          /\ (forall t', In t' (todolist (db w)) -> t' <> t ->
                         ToDoList.author_id t' = User.id owner -> In t' items)).
Proof.
  intros Hpk Hauth Hin out. subst out.
  rewrite (full_dispatch_delete _ _ _ _ _ Hauth Hin). simpl.
  assert (Hgone : ~ In (ToDoList.id t)
            (map ToDoList.id
               (filter (fun x => negb (Nat.eqb (ToDoList.id x) (ToDoList.id t)))
                  (todolist (db w))))).
  { intros H. apply in_map_iff in H. destruct H as [x [Hid Hx]].
    apply filter_In in Hx. destruct Hx as [_ Hx].
    rewrite Hid, Nat.eqb_refl in Hx. discriminate. }
  assert (Hkept : forall t', In t' (todolist (db w)) -> t' <> t ->
            In t' (filter (fun x => negb (Nat.eqb (ToDoList.id x) (ToDoList.id t)))
                     (todolist (db w)))).
  { intros t' Hin' Hneq. apply filter_In. split; [assumption|].
    apply negb_true_iff, Nat.eqb_neq. intros Hid. apply Hneq.
    apply (NoDup_map_id_eq ToDoList.id (todolist (db w))); assumption. }
  repeat split; try assumption.
  - intros t' Ht'. apply filter_In in Ht'. apply Ht'.
  - intros w' owner formdata' rnd' Hdb Hown Hid.
    eexists. split; [apply (home_GET _ _ _ _ Hown)|]. rewrite Hdb. split.
    + intros H. apply filter_by_author_id_In in H. destruct H as [H _].
      apply Hgone. simpl in H |- *. apply in_map. assumption.
    + intros t' Hin' Hneq Hauthor. apply filter_by_author_id_In. simpl.
      split; [apply Hkept; assumption | assumption].
Qed.

Lemma home_POST (w : World) (u : User.t) (formdata : Form) (rnd : nat -> nat)
    (d' : Database) (item : ToDoList.t) :
  current_user w = Some u ->
  add_commit_ToDoList (db w) (field_data "content" formdata)
    (field_data "date" formdata) (User.id u) = Ok (d', item) ->
  full_dispatch_request (mkRequest url_home POST formdata rnd) w
  = mkOutcome (mkWorld d' (session w)) [] (redirect "home").
Proof.
  intros H Hadd. unfold full_dispatch_request, dispatch_request; simpl.
  rewrite (login_required_authenticated _ _ _ H). unfold home. rewrite H, Hadd.
  reflexivity.
Qed.

Lemma add_commit_ToDoList_Ok (d d' : Database) (content date : option string)
    (author_id : nat) (item : ToDoList.t) :
  add_commit_ToDoList d content date author_id = Ok (d', item) ->
  exists c dt,
    content = Some c /\ date = Some dt
    /\ item = ToDoList.mk (next_rowid (map ToDoList.id (todolist d))) c dt author_id
    /\ d' = mkDatabase (users d) (todolist d ++ [item]).
Proof.
  unfold add_commit_ToDoList.
  destruct content as [c|]; [|discriminate].
  destruct date as [dt|]; [|discriminate].
  intros H. injection H as <- <-. exists c, dt. repeat split.
Qed.

(** C6. For an authenticated user the task page lists exactly the rows of
    [todolist] whose [author_id] is that user's id, in table order.  When
    user A creates a task through [/home], the new row is in A's listing;
    no listing for a user B with another id contains it, whatever the
    tables hold by then, and right after the creation B's listing is what
    it was before. *)
Theorem listing_owner_only (w : World) (a : User.t) (formdata : Form)
    (rnd : nat -> nat) :
  current_user w = Some a ->
  (exists items,
     full_dispatch_request (mkRequest url_home GET formdata rnd) w
     = mkOutcome w [] (render_template "index.html" (Some a) items)
     /\ items = filter (fun t => Nat.eqb (ToDoList.author_id t) (User.id a))
                  (todolist (db w))
     /\ (forall t, In t items <->
                   In t (todolist (db w)) /\ ToDoList.author_id t = User.id a))
  /\ (forall d' item,
        add_commit_ToDoList (db w) (field_data "content" formdata)
          (field_data "date" formdata) (User.id a) = Ok (d', item) ->
        full_dispatch_request (mkRequest url_home POST formdata rnd) w
        = mkOutcome (mkWorld d' (session w)) [] (redirect "home")
        /\ In item (ToDoList_filter_by_author_id d' (User.id a))
        /\ forall wb b formdata' rnd',
             current_user wb = Some b ->
             User.id b <> User.id a ->
             exists items,
               full_dispatch_request (mkRequest url_home GET formdata' rnd') wb
               = mkOutcome wb [] (render_template "index.html" (Some b) items)
               /\ ~ In item items
               /\ (db wb = d' ->
                   items = ToDoList_filter_by_author_id (db w) (User.id b))).
Proof.
  intros Hauth. split.
  - eexists. split; [apply (home_GET _ _ _ _ Hauth)|]. split; [reflexivity|].
    intros t. apply filter_by_author_id_In.
  - intros d' item Hadd. split; [apply (home_POST _ _ _ _ _ _ Hauth Hadd)|].
    destruct (add_commit_ToDoList_Ok _ _ _ _ _ _ Hadd) as [c [dt [_ [_ [Hitem Hd']]]]].
    split.
    + apply filter_by_author_id_In. subst d'; simpl. split.
      * apply in_or_app. right. left. reflexivity.
      * subst item. reflexivity.
    + intros wb b formdata' rnd' Hb Hneq.
      eexists. split; [apply (home_GET _ _ _ _ Hb)|]. split.
      * intros H. apply filter_by_author_id_In in H. destruct H as [_ H].
        subst item. simpl in H. congruence.
      * intros Hdb. rewrite Hdb. subst d'.
        unfold ToDoList_filter_by_author_id; simpl.
        rewrite filter_app; simpl. subst item; simpl.
        destruct (Nat.eqb_spec (User.id a) (User.id b)) as [E|_].
        -- exfalso. apply Hneq. symmetry. exact E.
        -- apply app_nil_r.
Qed.


(** ** Registration *)

Lemma first_filter_None {A : Type} (p : A -> bool) (l : list A) :
  first (filter p l) = None -> existsb p l = false.
Proof.
  induction l as [|a l IH]; simpl; [reflexivity|].
  destruct (p a); simpl; [discriminate | exact IH].
Qed.

Lemma existsb_email_false (l : list User.t) (e : string) :
  existsb (fun u => String.eqb (User.email u) e) l = false ->
  ~ In e (map User.email l).
Proof.
  intros H Hin. apply in_map_iff in Hin. destruct Hin as [u [Heq Hin]].
  rewrite <- not_true_iff_false in H. apply H. apply existsb_exists.
  exists u. split; [assumption|]. apply String.eqb_eq. assumption.
Qed.

Lemma next_rowid_fresh (ids : list nat) : ~ In (next_rowid ids) ids.
Proof.
  unfold next_rowid. intros Hin.
  assert (Hle : list_max ids <= list_max ids) by lia.
  rewrite list_max_le in Hle. rewrite Forall_forall in Hle.
  apply Hle in Hin. lia.
Qed.

Lemma register_no_abort (rnd : nat -> nat) (m : Method) (formdata : Form)
    (w : World) (code : nat) :
  response (register rnd m formdata w) <> abort code.
Proof.
  unfold register. destruct m; [discriminate|].
  destruct (first _) as [user|]; [discriminate|].
  destruct (bind _ _) as [[d' new_user]|e]; discriminate.
Qed.

Lemma full_dispatch_register (rnd : nat -> nat) (m : Method) (formdata : Form)
    (w : World) :
  full_dispatch_request (mkRequest url_register m formdata rnd) w
  = register rnd m formdata w.
Proof.
  rewrite full_dispatch_no_abort; [reflexivity|].
  intros code. apply register_no_abort.
Qed.

Lemma register_POST_duplicate (rnd : nat -> nat) (formdata : Form) (w : World)
    (user : User.t) :
  first (User_filter_by_email (db w) (field_data "email" formdata)) = Some user ->
  register rnd POST formdata w
  = mkOutcome w [duplicate_notice] (redirect "login").
Proof. unfold register. intros ->. reflexivity. Qed.

Lemma register_POST_fresh (rnd : nat -> nat) (formdata : Form) (w : World)
    (fn ln e pw : string) :
  field_data "first_name" formdata = Some fn ->
  field_data "last_name" formdata = Some ln ->
  field_data "email" formdata = Some e ->
  field_data "password" formdata = Some pw ->
  first (User_filter_by_email (db w) (Some e)) = None ->
  register rnd POST formdata w
  = let new_user := registered_user (db w) rnd fn ln e pw in
    mkOutcome
      (mkWorld (mkDatabase (users (db w) ++ [new_user]) (todolist (db w)))
         (Some (User.id new_user)))
      [] (redirect "home").
Proof.
  intros Hfn Hln He Hpw Hfresh. unfold register.
  rewrite Hfn, Hln, He, Hpw, Hfresh, generate_password_hash_Some. simpl.
  unfold add_commit_User. simpl in Hfresh.
  rewrite (first_filter_None _ _ Hfresh). reflexivity.
Qed.

Lemma register_POST_redirect_home (rnd : nat -> nat) (formdata : Form) (w : World) :
  response (register rnd POST formdata w) = redirect "home" ->
  exists fn ln e pw,
    field_data "first_name" formdata = Some fn
    /\ field_data "last_name" formdata = Some ln
    /\ field_data "email" formdata = Some e
    /\ field_data "password" formdata = Some pw
    /\ first (User_filter_by_email (db w) (Some e)) = None.
Proof.
  unfold register.
  destruct (first (User_filter_by_email (db w) (field_data "email" formdata)))
    as [user|] eqn:Hfirst; [discriminate|].
  destruct (field_data "password" formdata) as [pw|]; [|discriminate].
  rewrite generate_password_hash_Some. simpl. unfold add_commit_User.
  destruct (field_data "first_name" formdata) as [fn|]; [|discriminate].
  destruct (field_data "last_name" formdata) as [ln|]; [|discriminate].
  destruct (field_data "email" formdata) as [e|]; [|discriminate].
  intros _. exists fn, ln, e, pw. repeat split. exact Hfirst.
Qed.

Lemma filter_by_email_new (d : Database) (u : User.t) :
  first (User_filter_by_email d (Some (User.email u))) = None ->
  User_filter_by_email (mkDatabase (users d ++ [u]) (todolist d))
    (Some (User.email u)) = [u].
Proof.
  unfold User_filter_by_email; simpl. intros H.
  rewrite filter_app; simpl. rewrite String.eqb_refl.
  destruct (filter _ (users d)); [reflexivity | discriminate].
Qed.

Lemma find_app_r {A : Type} (p : A -> bool) (l1 l2 : list A) :
  find p l1 = None -> find p (l1 ++ l2) = find p l2.
Proof.
  induction l1 as [|a l1 IH]; simpl; [reflexivity|].
  destruct (p a); [discriminate | exact IH].
Qed.

Lemma User_get_new (d : Database) (u : User.t) :
  User.id u = next_rowid (map User.id (users d)) ->
  User_get (mkDatabase (users d ++ [u]) (todolist d)) (User.id u) = Some u.
Proof.
  intros Hid. unfold User_get; simpl.
  rewrite find_app_r.
  - simpl. rewrite Nat.eqb_refl. reflexivity.
  - destruct (find _ (users d)) as [u'|] eqn:E; [|reflexivity].
    exfalso. apply find_some in E. destruct E as [Hin Heq].
    apply Nat.eqb_eq in Heq. apply (next_rowid_fresh (map User.id (users d))).
    rewrite <- Hid, <- Heq. apply in_map. assumption.
Qed.



(** C4. A login POST for an email no row carries flashes the
    please-register notice and redirects to [register], the world
    unchanged.  For an existing email whose stored token the submitted
    password does not verify against, it flashes the incorrect-password
    notice and renders the login page again, the world unchanged.  The
    tables are never written, and the session changes (and the response
    is the redirect to [home]) only when the check returned true, in
    which case the session is bound to the user found.  When every stored
    password is a token written by [register], the check of a submitted
    password returns and does not raise, so a login with a known email
    ends in one of the two branches. *)
Theorem login_failure_branches (w : World) (formdata : Form) (rnd : nat -> nat) :
  let out := full_dispatch_request (mkRequest url_login POST formdata rnd) w in
  let found := first (User_filter_by_email (db w) (field_data "email" formdata)) in
  let verify := fun user : User.t =>
    check_password_hash (User.password user) (field_data "password" formdata) in
  (found = None ->
   out = mkOutcome w ["Please register to use our services"] (redirect "register"))
  /\ (forall user, found = Some user -> verify user = Ok false ->
      out = mkOutcome w ["Password enter is incorrect. Please try again."]
              (render_template "login.html" (current_user w) []))
  /\ (forall user, found = Some user -> verify user = Ok true ->
      out = mkOutcome (login_user user w) [] (redirect "home"))
  /\ db (world out) = db w
  /\ (session (world out) <> session w \/ response out = redirect "home" ->
      exists user,
        found = Some user /\ verify user = Ok true
        /\ session (world out) = Some (User.id user))
  /\ (forall user pw,
        hashed_passwords (db w) ->
        found = Some user -> field_data "password" formdata = Some pw ->
        exists b, verify user = Ok b).
Proof.
  intros out found verify.
  assert (Hreturns : forall user pw,
            hashed_passwords (db w) ->
            found = Some user -> field_data "password" formdata = Some pw ->
            exists b, verify user = Ok b).
  { intros user pw Hdb Hfound Hpw. subst found verify. simpl. rewrite Hpw.
    apply first_filter_by_email_In in Hfound.
    apply (check_hashed_password_returns (db w)); [assumption | apply Hfound]. }
  cut ((found = None ->
        out = mkOutcome w ["Please register to use our services"]
                (redirect "register"))
       /\ (forall user, found = Some user -> verify user = Ok false ->
           out = mkOutcome w ["Password enter is incorrect. Please try again."]
                   (render_template "login.html" (current_user w) []))
       /\ (forall user, found = Some user -> verify user = Ok true ->
           out = mkOutcome (login_user user w) [] (redirect "home"))
       /\ db (world out) = db w
       /\ (session (world out) <> session w \/ response out = redirect "home" ->
           exists user,
             found = Some user /\ verify user = Ok true
             /\ session (world out) = Some (User.id user))).
  { intros [H1 [H2 [H3 [H4 H5]]]]. repeat (split; [assumption|]). exact Hreturns. }
  clear Hreturns. subst out found verify.
  rewrite full_dispatch_login. unfold login.
  destruct (first (User_filter_by_email (db w) (field_data "email" formdata)))
    as [user|].
  - destruct (check_password_hash (User.password user)
                (field_data "password" formdata)) as [[|]|e] eqn:E; simpl.
    + split; [intros H; discriminate H|].
      split; [intros u Hu Hf; injection Hu as <-; congruence|].
      split; [intros u Hu _; injection Hu as <-; reflexivity|].
      split; [reflexivity|]. intros _. exists user.
      split; [reflexivity|]. split; [exact E | reflexivity].
    + split; [intros H; discriminate H|]. split; [reflexivity|].
      split; [intros u Hu Ht; injection Hu as <-; congruence|].
      split; [reflexivity|]. intros [H|H]; [contradiction | discriminate H].
    + split; [intros H; discriminate H|].
      split; [intros u Hu Ht; injection Hu as <-; congruence|].
      split; [intros u Hu Ht; injection Hu as <-; congruence|].
      split; [reflexivity|]. intros [H|H]; [contradiction | discriminate H].
  - simpl. split; [reflexivity|].
    split; [intros u Hu; discriminate Hu|].
    split; [intros u Hu; discriminate Hu|].
    split; [reflexivity|]. intros [H|H]; [contradiction | discriminate H].
Qed.

(** C5. For every password and every salt draw, the token
    [generate_password_hash] returns verifies against that password;
    against any other string the check returns, without raising, the
    comparison of the two PBKDF2 digests under the token's salt, hence
    false whenever the digests differ.  After a registration POST with a
    fresh email, a login POST with the same email and password, from any
    session on the resulting tables, logs the registered user in and
    redirects to [home]. *)
Theorem credential_round_trip (rnd : nat -> nat) (pw : string) :
  let digest := fun s : string =>
    pbkdf2_hmac "sha256" s (gen_salt rnd 8) DEFAULT_PBKDF2_ITERATIONS in
  exists token,
    generate_password_hash rnd (Some pw) "pbkdf2:sha256" 8 = Ok token
    /\ check_password_hash token (Some pw) = Ok true
    /\ (forall wrong,
          check_password_hash token (Some wrong)
          = Ok (String.eqb (digest wrong) (digest pw)))
    /\ (forall wrong, digest wrong <> digest pw ->
                      check_password_hash token (Some wrong) = Ok false)
    /\ (forall w formdata fn ln e,
          field_data "first_name" formdata = Some fn ->
          field_data "last_name" formdata = Some ln ->
          field_data "email" formdata = Some e ->
          field_data "password" formdata = Some pw ->
          first (User_filter_by_email (db w) (Some e)) = None ->
          let registered :=
            full_dispatch_request (mkRequest url_register POST formdata rnd) w in
          forall w' formdata' rnd',
            db w' = db (world registered) ->
            field_data "email" formdata' = Some e ->
            field_data "password" formdata' = Some pw ->
            let new_user := registered_user (db w) rnd fn ln e pw in
            full_dispatch_request (mkRequest url_login POST formdata' rnd') w'
            = mkOutcome (mkWorld (db w') (Some (User.id new_user))) []
                (redirect "home")
            /\ current_user (mkWorld (db w') (Some (User.id new_user)))
               = Some new_user).
Proof.
  intros digest. exists (password_token rnd pw).
  split; [apply generate_password_hash_Some|].
  split; [rewrite check_password_token, String.eqb_refl; reflexivity|].
  split; [intros wrong; apply check_password_token|].
  split.
  { intros wrong Hneq. rewrite check_password_token.
    apply String.eqb_neq in Hneq. subst digest. simpl in Hneq.
    rewrite Hneq. reflexivity. }
  intros w formdata fn ln e Hfn Hln He Hpw Hfresh registered
         w' formdata' rnd' Hdb He' Hpw' new_user.
  subst registered. rewrite full_dispatch_register in Hdb.
  rewrite (register_POST_fresh rnd formdata w fn ln e pw Hfn Hln He Hpw Hfresh)
    in Hdb.
  simpl in Hdb. fold new_user in Hdb.
  rewrite full_dispatch_login. unfold login. rewrite He', Hpw', Hdb.
  change e with (User.email new_user) at 1.
  rewrite (filter_by_email_new (db w) new_user Hfresh). simpl.
  rewrite check_password_token, String.eqb_refl.
  split.
  - unfold login_user. rewrite Hdb. reflexivity.
  - unfold current_user, load_user. simpl.
    apply (User_get_new (db w) new_user). reflexivity.
Qed.


(** ** Email uniqueness *)

Lemma add_commit_User_Ok (d d' : Database) (fn ln e p : option string)
    (u : User.t) :
  add_commit_User d fn ln e p = Ok (d', u) ->
  users d' = (users d ++ [u])%list
  /\ todolist d' = todolist d
  /\ ~ In (User.email u) (map User.email (users d))
  /\ User.id u = next_rowid (map User.id (users d))
  /\ p = Some (User.password u).
Proof.
  unfold add_commit_User.
  destruct fn as [fn|]; [|discriminate].
  destruct ln as [ln|]; [|discriminate].
  destruct e as [e|]; [|discriminate].
  destruct p as [p|]; [|discriminate].
  destruct (existsb _ _) eqn:E; [discriminate|].
  intros H. injection H as <- <-. simpl.
  split; [reflexivity|]. split; [reflexivity|].
  split; [apply existsb_email_false; assumption|].
  split; reflexivity.
Qed.

Lemma world_full_dispatch (rq : Request) (w : World) :
  world (full_dispatch_request rq w) = world (dispatch_request rq w).
Proof.
  unfold full_dispatch_request.
  destruct (response (dispatch_request rq w)) as [| |code|]; try reflexivity.
  destruct (Nat.eqb code 401); reflexivity.
Qed.

(** What one request can do to [users]: nothing, or append one row whose
    email and id no earlier row carries. *)
Lemma dispatch_users (rq : Request) (w : World) :
  let d' := db (world (full_dispatch_request rq w)) in
  users d' = users (db w)
  \/ exists u,
       users d' = (users (db w) ++ [u])%list
       /\ ~ In (User.email u) (map User.email (users (db w)))
       /\ ~ In (User.id u) (map User.id (users (db w)))
       /\ exists rnd pw, User.password u = password_token rnd pw.
Proof.
  simpl. rewrite world_full_dispatch.
  destruct rq as [url m formdata rnd]. unfold dispatch_request; simpl.
  destruct url as [| | | |item_id].
  - unfold login_required, home.
    destruct (current_user w) as [cu|]; [|left; reflexivity].
    destruct m; [left; reflexivity|].
    destruct (add_commit_ToDoList _ _ _ _) as [[d' item]|e] eqn:E;
      [|left; reflexivity].
    apply add_commit_ToDoList_Ok in E.
    destruct E as [c [dt [_ [_ [_ ->]]]]]. left. reflexivity.
  - unfold register. destruct m; [left; reflexivity|].
    destruct (first _) as [user|]; [left; reflexivity|].
    destruct (field_data "password" formdata) as [pw|]; [|left; reflexivity].
    rewrite generate_password_hash_Some. simpl.
    destruct (add_commit_User _ _ _ _ _) as [[d' new_user]|e] eqn:E;
      [|left; reflexivity].
    apply add_commit_User_Ok in E. destruct E as [Hu [_ [Hemail [Hid Hpw]]]].
    right. exists new_user. simpl. split; [assumption|]. split; [assumption|].
    split; [rewrite Hid; apply next_rowid_fresh|].
    exists rnd, pw. injection Hpw as ->. reflexivity.
  - unfold login. destruct m; [left; reflexivity|].
    destruct (first _) as [user|]; [|left; reflexivity].
    destruct (check_password_hash _ _) as [[|]|e]; left; reflexivity.
  - destruct m; left; reflexivity.
  - destruct m; [|left; reflexivity].
    unfold login_required, deleteToDoListItem.
    destruct (current_user w) as [cu|]; [|left; reflexivity].
    destruct (ToDoList_get (db w) item_id); left; reflexivity.
Qed.

Lemma NoDup_snoc {A : Type} (l : list A) (x : A) :
  NoDup l -> ~ In x l -> NoDup (l ++ [x]).
Proof.
  intros Hnd Hx. apply NoDup_app; [assumption | repeat constructor; auto|].
  intros y Hy [<-|[]]. contradiction.
Qed.

Lemma dispatch_unique_emails (rq : Request) (w : World) :
  unique_emails (db w) ->
  unique_emails (db (world (full_dispatch_request rq w))).
Proof.
  unfold unique_emails. intros H.
  destruct (dispatch_users rq w) as [->|[u [-> [Hemail _]]]]; [assumption|].
  rewrite map_app. apply NoDup_snoc; assumption.
Qed.

Lemma run_unique_emails (trace : list (nat * Request)) (sv : Server) :
  unique_emails (store sv) -> unique_emails (store (run sv trace)).
Proof.
  revert sv. induction trace as [|[client rq] rest IH]; intros sv H; simpl.
  - assumption.
  - apply IH. simpl.
    apply (dispatch_unique_emails rq (mkWorld (store sv) (cookies sv client)) H).
Qed.

Lemma filter_email_absent (l : list User.t) (e : string) :
  ~ In e (map User.email l) ->
  filter (fun u => String.eqb (User.email u) e) l = [].
Proof.
  induction l as [|u l IH]; simpl; intros H; [reflexivity|].
  destruct (String.eqb_spec (User.email u) e) as [Heq|Hneq].
  - exfalso. apply H. left. assumption.
  - apply IH. intros Hin. apply H. right. assumption.
Qed.

Lemma unique_emails_at_most_one (d : Database) (e : string) :
  unique_emails d -> length (User_filter_by_email d (Some e)) <= 1.
Proof.
  unfold unique_emails, User_filter_by_email.
  induction (users d) as [|u l IH]; simpl; intros H; [lia|].
  inversion H as [|? ? Hnotin Hnd]; subst.
  destruct (String.eqb_spec (User.email u) e) as [Heq|Hneq]; [|auto].
  subst e. rewrite (filter_email_absent l _ Hnotin). simpl. lia.
Qed.

(** C1. Starting from tables in which no two users share an email,
    after any sequence of requests by any clients no two users share an
    email, so a lookup by email returns at most one row.  A registration
    POST for an email some row already carries creates nothing: both
    tables and every client's session are as before, the notice
    "The provided email already exists, please login instead" is flashed
    and the response is the redirect to [login].  In particular, once a
    registration has succeeded, a second one with the same email, by any
    client, is rejected that way. *)
Theorem email_uniqueness_invariant (sv : Server) (trace : list (nat * Request)) :
  unique_emails (store sv) ->
  let sv1 := run sv trace in
  unique_emails (store sv1)
  /\ (forall e, length (User_filter_by_email (store sv1) (Some e)) <= 1)
  /\ (forall client formdata rnd user,
        first (User_filter_by_email (store sv1) (field_data "email" formdata))
        = Some user ->
        let served := serve sv1 client (mkRequest url_register POST formdata rnd) in
        snd served
        = mkOutcome (mkWorld (store sv1) (cookies sv1 client))
            [duplicate_notice] (redirect "login")
        /\ store (fst served) = store sv1
        /\ (forall c, cookies (fst served) c = cookies sv1 c))
  /\ (forall client formdata rnd client' formdata' rnd',
        let served := serve sv1 client (mkRequest url_register POST formdata rnd) in
        response (snd served) = redirect "home" ->
        field_data "email" formdata' = field_data "email" formdata ->
        let again :=
          serve (fst served) client' (mkRequest url_register POST formdata' rnd') in
        store (fst again) = store (fst served)
        /\ flashed (snd again) = [duplicate_notice]
        /\ response (snd again) = redirect "login").
Proof.
  intros Hinv sv1. pose proof (run_unique_emails trace sv Hinv) as Hsv1.
  fold sv1 in Hsv1.
  assert (Hdup : forall (s : Server) client formdata rnd user,
    first (User_filter_by_email (store s) (field_data "email" formdata))
    = Some user ->
    let served := serve s client (mkRequest url_register POST formdata rnd) in
    snd served
    = mkOutcome (mkWorld (store s) (cookies s client))
        [duplicate_notice] (redirect "login")
    /\ store (fst served) = store s
    /\ (forall c, cookies (fst served) c = cookies s c)).
  { intros s client formdata rnd user Hfound served. subst served.
    unfold serve. rewrite full_dispatch_register.
    rewrite (register_POST_duplicate rnd formdata
               (mkWorld (store s) (cookies s client)) user Hfound). simpl.
    split; [reflexivity|]. split; [reflexivity|].
    intros c. destruct (Nat.eqb_spec c client) as [->|]; reflexivity. }
  split; [assumption|].
  split; [intros e; apply unique_emails_at_most_one; assumption|].
  split; [apply Hdup|].
  intros client formdata rnd client' formdata' rnd' served Hok Hsame again.
  assert (Hfound : exists user,
    first (User_filter_by_email (store (fst served))
             (field_data "email" formdata')) = Some user).
  { subst served. unfold serve in Hok |- *. simpl in Hok |- *.
    rewrite full_dispatch_register in Hok |- *.
    destruct (register_POST_redirect_home _ _ _ Hok)
      as [fn [ln [e [pw [Hfn [Hln [He [Hpw Hfresh]]]]]]]].
    rewrite (register_POST_fresh rnd formdata
               (mkWorld (store sv1) (cookies sv1 client))
               fn ln e pw Hfn Hln He Hpw Hfresh).
    simpl. rewrite Hsame, He.
    set (new_user := registered_user (store sv1) rnd fn ln e pw).
    exists new_user.
    change e with (User.email new_user).
    rewrite (filter_by_email_new (store sv1) new_user Hfresh). reflexivity. }
  destruct Hfound as [user Hfound].
  destruct (Hdup (fst served) client' formdata' rnd' user Hfound) as [Hout [Hst _]].
  fold again in Hout, Hst. rewrite Hout. simpl.
  split; [assumption|]. split; reflexivity.
Qed.


(** ** Stored passwords *)

Lemma dispatch_hashed_passwords (rq : Request) (w : World) :
  hashed_passwords (db w) ->
  hashed_passwords (db (world (full_dispatch_request rq w))).
Proof.
  unfold hashed_passwords. intros H.
  destruct (dispatch_users rq w) as [->|[new_user [-> [_ [_ Htoken]]]]];
    [assumption|].
  intros u Hin. apply in_app_or in Hin. destruct Hin as [Hin|[<-|[]]].
  - apply H. assumption.
  - assumption.
Qed.

(** X16. Only tokens are stored: if every [password] in [users] is a
    token of [generate_password_hash], this still holds after any run of
    requests; no view writes a submitted password into the table. *)
Lemma run_hashed_passwords (trace : list (nat * Request)) (sv : Server) :
  hashed_passwords (store sv) -> hashed_passwords (store (run sv trace)).
Proof.
  revert sv. induction trace as [|[client rq] rest IH]; intros sv H; simpl.
  - assumption.
  - apply IH. simpl.
    apply (dispatch_hashed_passwords rq (mkWorld (store sv) (cookies sv client)) H).
Qed.

(** ** Primary keys

    The two [id] columns stay duplicate-free along every run, so the
    key hypotheses of the statements above hold in every reachable
    state. *)

Lemma filter_keeps_task_ids_unique (keep : ToDoList.t -> bool)
    (rows : list ToDoList.t) :
  NoDup (map ToDoList.id rows) -> NoDup (map ToDoList.id (filter keep rows)).
Proof.
  intros Hrows. induction rows as [|row rows IH]; simpl; [constructor|].
  apply NoDup_cons_iff in Hrows. destruct Hrows as [Hfresh Hrest].
  destruct (keep row); simpl; [|exact (IH Hrest)].
  apply NoDup_cons; [|exact (IH Hrest)].
  intros Hin. apply Hfresh. apply in_map_iff in Hin.
  destruct Hin as [x [Hx Hin]]. apply filter_In in Hin.
  rewrite <- Hx. apply in_map. apply Hin.
Qed.

Lemma dispatch_unique_user_ids (rq : Request) (w : World) :
  unique_user_ids (db w) ->
  unique_user_ids (db (world (full_dispatch_request rq w))).
Proof.
  unfold unique_user_ids. intros H.
  destruct (dispatch_users rq w) as [->|[u [-> [_ [Hid _]]]]]; [assumption|].
  rewrite map_app. apply NoDup_snoc; assumption.
Qed.

Lemma dispatch_unique_task_ids (rq : Request) (w : World) :
  unique_task_ids (db w) ->
  unique_task_ids (db (world (full_dispatch_request rq w))).
Proof.
  unfold unique_task_ids. intros H. rewrite world_full_dispatch.
  destruct rq as [url m formdata rnd]. unfold dispatch_request; simpl.
  destruct url as [| | | |item_id].
  - unfold login_required, home.
    destruct (current_user w) as [cu|]; [|assumption].
    destruct m; [assumption|].
    destruct (add_commit_ToDoList _ _ _ _) as [[d' item]|e] eqn:E; [|assumption].
    apply add_commit_ToDoList_Ok in E.
    destruct E as [c [dt [_ [_ [Hitem ->]]]]]. simpl.
    rewrite map_app. apply NoDup_snoc; [assumption|].
    subst item. simpl. apply next_rowid_fresh.
  - unfold register. destruct m; [assumption|].
    destruct (first _) as [user|]; [assumption|].
    destruct (generate_password_hash rnd _ _ _) as [pwhash|e]; simpl;
      [|assumption].
    destruct (add_commit_User _ _ _ _ _) as [[d' new_user]|e] eqn:E;
      [|assumption].
    apply add_commit_User_Ok in E. destruct E as [_ [Htodo _]].
    simpl. rewrite Htodo. assumption.
  - unfold login. destruct m; [assumption|].
    destruct (first _) as [user|]; [|assumption].
    destruct (check_password_hash _ _) as [[|]|e]; assumption.
  - destruct m; assumption.
  - destruct m; [|assumption].
    unfold login_required, deleteToDoListItem.
    destruct (current_user w) as [cu|]; [|assumption].
    destruct (ToDoList_get (db w) item_id) as [t|]; [|assumption].
    simpl. apply filter_keeps_task_ids_unique. assumption.
Qed.

(** X15. Ids stay keys: if no two users share an id and no two tasks
    share an id, the same holds after any run of requests. *)
Lemma run_primary_keys (trace : list (nat * Request)) (sv : Server) :
  unique_user_ids (store sv) /\ unique_task_ids (store sv) ->
  unique_user_ids (store (run sv trace)) /\ unique_task_ids (store (run sv trace)).
Proof.
  revert sv. induction trace as [|[client rq] rest IH]; intros sv [Hu Ht]; simpl.
  - split; assumption.
  - apply IH. simpl. split.
    + apply (dispatch_unique_user_ids rq (mkWorld (store sv) (cookies sv client)) Hu).
    + apply (dispatch_unique_task_ids rq (mkWorld (store sv) (cookies sv client)) Ht).
Qed.

(** ** Forms with a required field missing *)

(** C8. The views never run the validators [forms.py] declares.  A login
    POST with no field at all fails [validate] yet is answered with the
    please-register notice and a redirect to [register], not with the
    login page; a task POST without [content] fails [validate] and ends in
    a server error raised by the NOT NULL constraint; a task POST whose
    [content] is blank fails [validate] and still inserts a row. *)
Theorem missing_field_not_recovered :
  let anonymous := mkWorld empty_db None in
  let as_alice := mkWorld (mkDatabase [alice] []) (Some 1) in
  let no_fields : Form := [] in
  let no_content : Form := [("date", "2024-01-01")] in
  let blank_content : Form := [("content", " "); ("date", "2024-01-01")] in
  let login_out :=
    full_dispatch_request (mkRequest url_login POST no_fields no_random) anonymous in
  let missing_out :=
    full_dispatch_request (mkRequest url_home POST no_content no_random) as_alice in
  let blank_out :=
    full_dispatch_request (mkRequest url_home POST blank_content no_random) as_alice in
  (validate LoginForm no_fields = false
   /\ login_out
      = mkOutcome anonymous ["Please register to use our services"]
          (redirect "register")
   /\ forall template cu items,
        response login_out <> render_template template cu items)
  /\ (validate ToDoListForm no_content = false
      /\ missing_out = mkOutcome as_alice [] (server_error IntegrityError)
      /\ forall template cu items,
           response missing_out <> render_template template cu items)
  /\ (validate ToDoListForm blank_content = false
      /\ blank_out
         = mkOutcome
             (mkWorld (mkDatabase [alice] [ToDoList.mk 1 " " "2024-01-01" 1])
                (Some 1))
             [] (redirect "home")
      /\ todolist (db (world blank_out)) <> todolist (db as_alice)).
Proof.
  cbv zeta. split; [|split].
  - split; [reflexivity|]. split; [reflexivity|]. intros; discriminate.
  - split; [reflexivity|]. split; [reflexivity|]. intros; discriminate.
  - split; [reflexivity|]. split; [reflexivity|]. discriminate.
Qed.

(** * Further properties of the views *)

(** ** Creating tasks *)

Lemma current_user_same (w w' : World) :
  users (db w') = users (db w) -> session w' = session w ->
  current_user w' = current_user w.
Proof.
  unfold current_user, load_user, User_get. intros -> ->. reflexivity.
Qed.

Lemma rowid_above (ids : list nat) (i : nat) : In i ids -> i < next_rowid ids.
Proof.
  intros Hin. unfold next_rowid.
  assert (Hle : list_max ids <= list_max ids) by lia.
  rewrite list_max_le, Forall_forall in Hle. apply Hle in Hin. lia.
Qed.

Lemma filter_out_fresh_rowid (rows : list ToDoList.t) (fresh : nat) :
  (forall row, In row rows -> ToDoList.id row < fresh) ->
  filter (fun x => negb (Nat.eqb (ToDoList.id x) fresh)) rows = rows.
Proof.
  induction rows as [|row rows IH]; simpl; intros Hlt; [reflexivity|].
  assert (Hrow : ToDoList.id row < fresh) by (apply Hlt; left; reflexivity).
  destruct (Nat.eqb_spec (ToDoList.id row) fresh) as [E|_]; [lia|]. simpl.
  f_equal. apply IH. intros r Hr. apply Hlt. right. assumption.
Qed.

Lemma create_task_appends_eq (w : World) (u : User.t) (formdata : Form)
    (rnd : nat -> nat) (c dt : string) :
  current_user w = Some u ->
  field_data "content" formdata = Some c ->
  field_data "date" formdata = Some dt ->
  let item :=
    ToDoList.mk (next_rowid (map ToDoList.id (todolist (db w)))) c dt (User.id u) in
  let w1 :=
    mkWorld (mkDatabase (users (db w)) (todolist (db w) ++ [item])) (session w) in
  full_dispatch_request (mkRequest url_home POST formdata rnd) w
  = mkOutcome w1 [] (redirect "home")
  /\ current_user w1 = Some u.
Proof.
  intros Hauth Hc Hdt item w1. split.
  - apply (home_POST w u formdata rnd _ item Hauth).
    rewrite Hc, Hdt. reflexivity.
  - rewrite <- Hauth. apply current_user_same; reflexivity.
Qed.

(** X1. A task POST by a logged-in user with both fields submitted
    appends one row to [todolist]: it carries the submitted content and
    date, the caller's id as [author_id] and an id no earlier row has;
    [users] and the session are untouched, nothing is flashed, and the
    response is the redirect to [home].  The caller's next task page is
    the previous listing followed by the new row. *)
Theorem create_task_appends (w : World) (u : User.t) (formdata : Form)
    (rnd : nat -> nat) (c dt : string) :
  current_user w = Some u ->
  field_data "content" formdata = Some c ->
  field_data "date" formdata = Some dt ->
  let out := full_dispatch_request (mkRequest url_home POST formdata rnd) w in
  let item :=
    ToDoList.mk (next_rowid (map ToDoList.id (todolist (db w)))) c dt (User.id u) in
  out = mkOutcome
          (mkWorld (mkDatabase (users (db w)) (todolist (db w) ++ [item]))
             (session w))
          [] (redirect "home")
  /\ ~ In (ToDoList.id item) (map ToDoList.id (todolist (db w)))
  /\ forall formdata' rnd',
       full_dispatch_request (mkRequest url_home GET formdata' rnd') (world out)
       = mkOutcome (world out) []
           (render_template "index.html" (Some u)
              (ToDoList_filter_by_author_id (db w) (User.id u) ++ [item])).
Proof.
  intros Hauth Hc Hdt out item.
  assert (Hout : out = mkOutcome
            (mkWorld (mkDatabase (users (db w)) (todolist (db w) ++ [item]))
               (session w)) [] (redirect "home")).
  { subst out. apply (home_POST w u formdata rnd _ item Hauth).
    rewrite Hc, Hdt. reflexivity. }
  split; [exact Hout|]. split; [apply next_rowid_fresh|].
  intros formdata' rnd'. rewrite Hout. simpl.
  rewrite (home_GET _ u).
  - unfold ToDoList_filter_by_author_id. simpl. rewrite filter_app. simpl.
    rewrite Nat.eqb_refl. reflexivity.
  - rewrite <- Hauth. apply current_user_same; reflexivity.
Qed.

(** X2. Creating a task and then deleting the id it was given brings the
    world back exactly: both tables and the session are what they were
    before the creation. *)
Theorem create_then_delete_restores (w : World) (u : User.t) (formdata : Form)
    (rnd : nat -> nat) (c dt : string) :
  current_user w = Some u ->
  field_data "content" formdata = Some c ->
  field_data "date" formdata = Some dt ->
  let created :=
    world (full_dispatch_request (mkRequest url_home POST formdata rnd) w) in
  let new_id := next_rowid (map ToDoList.id (todolist (db w))) in
  forall formdata' rnd',
    full_dispatch_request
      (mkRequest (url_deleteToDoListItem new_id) GET formdata' rnd') created
    = mkOutcome w [] (redirect "home").
Proof.
  intros Hauth Hc Hdt created new_id formdata' rnd'.
  destruct (create_task_appends_eq w u formdata rnd c dt Hauth Hc Hdt) as [Hout Hcu].
  subst created. rewrite Hout.
  pose (item := ToDoList.mk new_id c dt (User.id u)).
  pose (w1 := mkWorld (mkDatabase (users (db w)) (todolist (db w) ++ [item]))
                (session w)).
  assert (Hin : In item (todolist (db w1))).
  { simpl. apply in_or_app. right. left. reflexivity. }
  etransitivity.
  { exact (full_dispatch_delete w1 u item formdata' rnd' Hcu Hin). }
  simpl. rewrite filter_app. simpl. rewrite Nat.eqb_refl. simpl.
  rewrite filter_out_fresh_rowid.
  - rewrite app_nil_r. destruct w as [[us ts] ss]. reflexivity.
  - intros row Hrow. apply rowid_above. apply in_map. assumption.
Qed.

(** ** Accounts over time *)

Lemma serve_users_appended (sv : Server) (client : nat) (rq : Request) :
  exists added,
    users (store (fst (serve sv client rq))) = (users (store sv) ++ added)%list.
Proof.
  unfold serve; simpl.
  destruct (dispatch_users rq (mkWorld (store sv) (cookies sv client)))
    as [H|[u [H _]]]; simpl in H; rewrite H.
  - exists []. symmetry. apply app_nil_r.
  - exists [u]. reflexivity.
Qed.

Lemma run_users_appended (sv : Server) (trace : list (nat * Request)) :
  exists added,
    users (store (run sv trace)) = (users (store sv) ++ added)%list.
Proof.
  revert sv. induction trace as [|[client rq] rest IH]; intros sv.
  - exists []. symmetry. apply app_nil_r.
  - change (run sv ((client, rq) :: rest))
      with (run (fst (serve sv client rq)) rest).
    destruct (IH (fst (serve sv client rq))) as [later Hlater].
    destruct (serve_users_appended sv client rq) as [now Hnow].
    exists (now ++ later)%list. rewrite Hlater, Hnow. symmetry. apply app_assoc.
Qed.

Lemma first_filter_by_email_appended (d d' : Database) (added : list User.t)
    (e : option string) (user : User.t) :
  users d' = (users d ++ added)%list ->
  first (User_filter_by_email d e) = Some user ->
  first (User_filter_by_email d' e) = Some user.
Proof.
  intros Hd'. destruct e as [e|]; simpl; [|discriminate].
  rewrite Hd', filter_app.
  destruct (filter _ (users d)) as [|x xs]; simpl; [discriminate | auto].
Qed.

Lemma User_get_appended (d d' : Database) (added : list User.t) (uid : nat)
    (user : User.t) :
  users d' = (users d ++ added)%list ->
  User_get d uid = Some user -> User_get d' uid = Some user.
Proof.
  unfold User_get. intros -> H.
  induction (users d) as [|x xs IH]; simpl in *; [discriminate|].
  destruct (Nat.eqb (User.id x) uid); [assumption | apply IH; assumption].
Qed.

(** X3. No request ever modifies or removes a row of [users]: after any
    run the table is the table of the start followed by the rows
    registered since, and a lookup by id or by email that found a user
    at the start still finds that same user. *)
Theorem users_only_grow (sv : Server) (trace : list (nat * Request)) :
  let sv1 := run sv trace in
  (exists added, users (store sv1) = (users (store sv) ++ added)%list)
  /\ (forall uid user,
        User_get (store sv) uid = Some user ->
        User_get (store sv1) uid = Some user)
  /\ (forall e user,
        first (User_filter_by_email (store sv) e) = Some user ->
        first (User_filter_by_email (store sv1) e) = Some user).
Proof.
  intros sv1. destruct (run_users_appended sv trace) as [added Hadded].
  fold sv1 in Hadded. split; [exists added; exact Hadded|]. split.
  - intros uid user. apply (User_get_appended _ _ added uid user Hadded).
  - intros e user. apply (first_filter_by_email_appended _ _ added e user Hadded).
Qed.

(** X4. An account stays usable: if the lookup by email finds a user
    whose stored password is the token of some password, then after any
    run of requests by any clients a login POST with that email and
    password, from any client, is answered with the redirect to [home] and
    binds that client's session to the same user. *)
Theorem registered_account_persists (sv : Server) (trace : list (nat * Request))
    (user : User.t) (salt_rnd : nat -> nat) (pw : string)
    (client : nat) (formdata : Form) (rnd : nat -> nat) :
  first (User_filter_by_email (store sv) (Some (User.email user))) = Some user ->
  User.password user = password_token salt_rnd pw ->
  field_data "email" formdata = Some (User.email user) ->
  field_data "password" formdata = Some pw ->
  let sv1 := run sv trace in
  let served := serve sv1 client (mkRequest url_login POST formdata rnd) in
  snd served
  = mkOutcome (mkWorld (store sv1) (Some (User.id user))) [] (redirect "home")
  /\ store (fst served) = store sv1
  /\ cookies (fst served) client = Some (User.id user).
Proof.
  intros Hfound Htoken He Hpw sv1 served.
  destruct (run_users_appended sv trace) as [added Hadded]. fold sv1 in Hadded.
  pose proof (first_filter_by_email_appended (store sv) (store sv1) added _ _
                Hadded Hfound) as Hfound1.
  assert (Hout : snd served
            = mkOutcome (mkWorld (store sv1) (Some (User.id user))) []
                (redirect "home")).
  { subst served. unfold serve; simpl. rewrite full_dispatch_login.
    unfold login. rewrite He, Hpw. simpl db. rewrite Hfound1, Htoken.
    rewrite check_password_token, String.eqb_refl. reflexivity. }
  split; [exact Hout|].
  subst served. unfold serve in *; simpl in *. rewrite Hout. simpl.
  split; [reflexivity|]. rewrite Nat.eqb_refl. reflexivity.
Qed.

Lemma serve_other_client (sv : Server) (client other : nat) (rq : Request) :
  other <> client ->
  cookies (fst (serve sv other rq)) client = cookies sv client.
Proof.
  intros Hneq. unfold serve; simpl.
  destruct (Nat.eqb_spec client other) as [E|_]; [|reflexivity].
  exfalso. apply Hneq. symmetry. exact E.
Qed.

(** X5. A session outlives what other clients do: if a client's session
    resolves to a user, then after any run of requests made by other
    clients it still resolves to that same user, and the client's GET of
    [/home] renders the task page. *)
Theorem session_survives_other_clients (sv : Server)
    (trace : list (nat * Request)) (client : nat) (user : User.t) :
  current_user (mkWorld (store sv) (cookies sv client)) = Some user ->
  Forall (fun step => fst step <> client) trace ->
  let sv1 := run sv trace in
  let w1 := mkWorld (store sv1) (cookies sv1 client) in
  current_user w1 = Some user
  /\ forall formdata rnd,
       full_dispatch_request (mkRequest url_home GET formdata rnd) w1
       = mkOutcome w1 []
           (render_template "index.html" (Some user)
              (ToDoList_filter_by_author_id (store sv1) (User.id user))).
Proof.
  intros Hcu Hothers sv1 w1.
  assert (Hcu1 : current_user w1 = Some user).
  { subst w1 sv1. revert sv Hcu.
    induction Hothers as [|[other rq] rest Hneq _ IH]; intros sv Hcu.
    - exact Hcu.
    - change (run sv ((other, rq) :: rest))
        with (run (fst (serve sv other rq)) rest).
      apply IH. cbn [fst] in Hneq.
      unfold current_user in Hcu |- *. cbn [session db] in Hcu |- *.
      rewrite (serve_other_client sv client other rq Hneq).
      destruct (cookies sv client) as [uid|]; [|discriminate].
      destruct (serve_users_appended sv other rq) as [added Hadded].
      unfold load_user in Hcu |- *.
      apply (User_get_appended (store sv) _ added uid user Hadded Hcu). }
  split; [exact Hcu1|]. intros formdata rnd.
  apply (home_GET w1 user formdata rnd Hcu1).
Qed.

(** ** Reference integrity *)

Lemma current_user_In (w : World) (u : User.t) :
  current_user w = Some u -> In u (users (db w)).
Proof.
  unfold current_user, load_user. destruct (session w) as [uid|]; [|discriminate].
  intros H. apply User_get_In in H. apply H.
Qed.

(** What one request can do to [todolist]: nothing, append one row
    authored by the current user, or drop the rows with one id. *)
Lemma dispatch_todolist (rq : Request) (w : World) :
  let d' := db (world (full_dispatch_request rq w)) in
  todolist d' = todolist (db w)
  \/ (exists cu c dt,
        current_user w = Some cu
        /\ todolist d'
           = (todolist (db w)
              ++ [ToDoList.mk (next_rowid (map ToDoList.id (todolist (db w))))
                    c dt (User.id cu)])%list)
  \/ (exists item_id,
        todolist d'
        = filter (fun x => negb (Nat.eqb (ToDoList.id x) item_id))
            (todolist (db w))).
Proof.
  simpl. rewrite world_full_dispatch.
  destruct rq as [url m formdata rnd]. unfold dispatch_request; simpl.
  destruct url as [| | | |item_id].
  - unfold login_required, home.
    destruct (current_user w) as [cu|] eqn:Hcu; [|left; reflexivity].
    destruct m; [left; reflexivity|].
    destruct (add_commit_ToDoList _ _ _ _) as [[d' item]|e] eqn:E;
      [|left; reflexivity].
    apply add_commit_ToDoList_Ok in E.
    destruct E as [c [dt [_ [_ [Hitem ->]]]]].
    right. left. exists cu, c, dt. split; [reflexivity|]. simpl.
    rewrite Hitem. reflexivity.
  - left. unfold register. destruct m; [reflexivity|].
    destruct (first _) as [user|]; [reflexivity|].
    destruct (generate_password_hash rnd _ _ _) as [pwhash|e]; simpl;
      [|reflexivity].
    destruct (add_commit_User _ _ _ _ _) as [[d' new_user]|e] eqn:E;
      [|reflexivity].
    apply add_commit_User_Ok in E. destruct E as [_ [Htodo _]]. exact Htodo.
  - left. unfold login. destruct m; [reflexivity|].
    destruct (first _) as [user|]; [|reflexivity].
    destruct (check_password_hash _ _) as [[|]|e]; reflexivity.
  - left. destruct m; reflexivity.
  - destruct m; [|left; reflexivity].
    unfold login_required, deleteToDoListItem.
    destruct (current_user w) as [cu|]; [|left; reflexivity].
    destruct (ToDoList_get (db w) item_id) as [t|]; [|left; reflexivity].
    right. right. exists (ToDoList.id t). reflexivity.
Qed.

Lemma dispatch_authors_exist (rq : Request) (w : World) :
  authors_exist (db w) ->
  authors_exist (db (world (full_dispatch_request rq w))).
Proof.
  unfold authors_exist. intros H.
  assert (Hids : forall i, In i (map User.id (users (db w))) ->
            In i (map User.id
                    (users (db (world (full_dispatch_request rq w)))))).
  { intros i Hi. destruct (dispatch_users rq w) as [->|[u [-> _]]];
      [assumption|]. rewrite map_app. apply in_or_app. left. assumption. }
  destruct (dispatch_todolist rq w)
    as [->|[[cu [c [dt [Hcu ->]]]]|[item_id ->]]]; intros t Ht.
  - apply Hids, H, Ht.
  - apply in_app_or in Ht. destruct Ht as [Ht|[<-|[]]].
    + apply Hids, H, Ht.
    + apply Hids. simpl. apply in_map. apply current_user_In. assumption.
  - apply filter_In in Ht. apply Hids, H, Ht.
Qed.

(** X6. No task is ever left without its author: if every row of
    [todolist] names the id of a row of [users], this still holds after
    any run of requests. *)
Theorem run_authors_exist (trace : list (nat * Request)) (sv : Server) :
  authors_exist (store sv) -> authors_exist (store (run sv trace)).
Proof.
  revert sv. induction trace as [|[client rq] rest IH]; intros sv H.
  - exact H.
  - change (run sv ((client, rq) :: rest))
      with (run (fst (serve sv client rq)) rest).
    apply IH. unfold serve. cbn [fst store].
    apply (dispatch_authors_exist rq (mkWorld (store sv) (cookies sv client)) H).
Qed.

(** ** Deleting twice, and logging out *)

(** X7. Deleting is not repeatable: once an authenticated caller has
    deleted an existing task, the same request again finds no row, ends
    in the server error of [db.session.delete(None)], and changes
    nothing. *)
Theorem delete_twice_raises (w : World) (caller : User.t) (t : ToDoList.t)
    (formdata : Form) (rnd : nat -> nat) :
  current_user w = Some caller ->
  In t (todolist (db w)) ->
  let rq := mkRequest (url_deleteToDoListItem (ToDoList.id t)) GET formdata rnd in
  let w1 := world (full_dispatch_request rq w) in
  response (full_dispatch_request rq w) = redirect "home"
  /\ full_dispatch_request rq w1
     = mkOutcome w1 [] (server_error UnmappedInstanceError).
Proof.
  intros Hauth Hin rq w1. subst w1 rq.
  rewrite (full_dispatch_delete w caller t formdata rnd Hauth Hin).
  split; [reflexivity|]. cbn [world].
  set (w1 := mkWorld _ (session w)).
  assert (Hauth1 : current_user w1 = Some caller).
  { rewrite <- Hauth. apply current_user_same; reflexivity. }
  assert (Hgone : ToDoList_get (db w1) (ToDoList.id t) = None).
  { apply ToDoList_get_None. subst w1. simpl. intros H.
    apply in_map_iff in H. destruct H as [x [Hid Hx]].
    apply filter_In in Hx. destruct Hx as [_ Hx].
    rewrite Hid, Nat.eqb_refl in Hx. discriminate. }
  unfold full_dispatch_request, dispatch_request; simpl.
  rewrite (login_required_authenticated _ _ _ Hauth1).
  unfold deleteToDoListItem. rewrite Hgone. reflexivity.
Qed.

(** X8. Logging out ends in the login prompt: [logout] redirects to
    [home], and in the session it leaves a request to [/home] (GET or
    POST) or to a delete URL is intercepted with the notice
    "Please Login" and the redirect to [login], the tables unchanged. *)
Theorem logout_then_protected_intercepted (w : World) (formdata : Form)
    (rnd : nat -> nat) :
  let logged_out :=
    full_dispatch_request (mkRequest url_logout GET formdata rnd) w in
  response logged_out = redirect "home"
  /\ (forall m formdata' rnd',
        full_dispatch_request (mkRequest url_home m formdata' rnd') (world logged_out)
        = mkOutcome (mkWorld (db w) None) ["Please Login"] (redirect "login"))
  /\ (forall item_id formdata' rnd',
        full_dispatch_request
          (mkRequest (url_deleteToDoListItem item_id) GET formdata' rnd')
          (world logged_out)
        = mkOutcome (mkWorld (db w) None) ["Please Login"] (redirect "login")).
Proof.
  intros logged_out. subst logged_out. split; [reflexivity|].
  split; intros; reflexivity.
Qed.

(** ** Requests with a field left out *)

(** X9. A registration POST that leaves out any of its four fields
    never creates a user and never changes the session.  If the
    submitted email is already taken it is rejected like any duplicate;
    otherwise it ends in a server error: [AttributeError] from hashing
    [None] when the password is the missing field, [IntegrityError] from
    the NOT NULL columns when it is another one. *)
Theorem register_missing_field (rnd : nat -> nat) (formdata : Form) (w : World) :
  field_data "first_name" formdata = None
  \/ field_data "last_name" formdata = None
  \/ field_data "email" formdata = None
  \/ field_data "password" formdata = None ->
  let out := full_dispatch_request (mkRequest url_register POST formdata rnd) w in
  world out = w
  /\ (first (User_filter_by_email (db w) (field_data "email" formdata)) <> None ->
      flashed out = [duplicate_notice] /\ response out = redirect "login")
  /\ (first (User_filter_by_email (db w) (field_data "email" formdata)) = None ->
      flashed out = []
      /\ response out
         = server_error
             match field_data "password" formdata with
             | None => AttributeError
             | Some _ => IntegrityError
             end).
Proof.
  intros Hmissing out. subst out. rewrite full_dispatch_register.
  unfold register.
  destruct (first (User_filter_by_email (db w) (field_data "email" formdata)))
    as [user|] eqn:Hfound.
  - split; [reflexivity|]. split; [intros _; split; reflexivity|].
    intros H; discriminate H.
  - assert (Hcrash :
      exists e,
        (pwhash <- generate_password_hash rnd (field_data "password" formdata)
                     "pbkdf2:sha256" 8 ;;
         add_commit_User (db w) (field_data "first_name" formdata)
           (field_data "last_name" formdata) (field_data "email" formdata)
           (Some pwhash)) = Raise e
        /\ e = match field_data "password" formdata with
               | None => AttributeError
               | Some _ => IntegrityError
               end).
    { destruct (field_data "password" formdata) as [pw|] eqn:Hpw.
      - rewrite generate_password_hash_Some. simpl. unfold add_commit_User.
        exists IntegrityError. split; [|reflexivity].
        destruct Hmissing as [->|[->|[->|H]]]; try reflexivity.
        + destruct (field_data "first_name" formdata); reflexivity.
        + destruct (field_data "first_name" formdata);
            [destruct (field_data "last_name" formdata)|]; reflexivity.
        + discriminate H.
      - exists AttributeError. split; reflexivity. }
    destruct Hcrash as [e [-> ->]].
    split; [reflexivity|]. split; [intros H; contradiction|].
    intros _. split; reflexivity.
Qed.

(** X10. A task POST by a logged-in user that leaves out [content] or
    [date] inserts nothing: the NOT NULL column raises, the request ends
    in a server error, and the world is unchanged. *)
Theorem create_task_missing_field (w : World) (u : User.t) (formdata : Form)
    (rnd : nat -> nat) :
  current_user w = Some u ->
  field_data "content" formdata = None \/ field_data "date" formdata = None ->
  full_dispatch_request (mkRequest url_home POST formdata rnd) w
  = mkOutcome w [] (server_error IntegrityError).
Proof.
  intros Hauth Hmissing. unfold full_dispatch_request, dispatch_request; simpl.
  rewrite (login_required_authenticated _ _ _ Hauth). unfold home. rewrite Hauth.
  unfold add_commit_ToDoList.
  destruct Hmissing as [->| ->]; [reflexivity|].
  destruct (field_data "content" formdata); reflexivity.
Qed.

Lemma check_password_token_None (rnd : nat -> nat) (pw : string) :
  check_password_hash (password_token rnd pw) None = Raise AttributeError.
Proof.
  unfold check_password_hash. rewrite password_token_split. reflexivity.
Qed.

(** X11. A login POST without a password field: for an unknown email
    it is answered like any unknown account; for a known email whose
    stored password is a token of [generate_password_hash], checking
    [None] raises, the request ends in a server error, and nobody is
    logged in. *)
Theorem login_missing_password (w : World) (formdata : Form) (rnd : nat -> nat) :
  hashed_passwords (db w) ->
  field_data "password" formdata = None ->
  let out := full_dispatch_request (mkRequest url_login POST formdata rnd) w in
  world out = w
  /\ (first (User_filter_by_email (db w) (field_data "email" formdata)) = None ->
      out = mkOutcome w ["Please register to use our services"]
              (redirect "register"))
  /\ (first (User_filter_by_email (db w) (field_data "email" formdata)) <> None ->
      out = mkOutcome w [] (server_error AttributeError)).
Proof.
  intros Hdb Hpw out. subst out. rewrite full_dispatch_login. unfold login.
  rewrite Hpw.
  destruct (first (User_filter_by_email (db w) (field_data "email" formdata)))
    as [user|] eqn:Hfound.
  - apply first_filter_by_email_In in Hfound. destruct Hfound as [Hin _].
    destruct (Hdb user Hin) as [salt_rnd [pw ->]].
    rewrite check_password_token_None.
    split; [reflexivity|]. split; [intros H; discriminate H | reflexivity].
  - split; [reflexivity|]. split; [reflexivity | intros H; contradiction].
Qed.

(** ** Forms that pass the declared validators *)

Lemma DataRequired_Some (data : option string) :
  DataRequired data = true -> exists s, data = Some s.
Proof.
  destruct data as [s|]; [|discriminate]. intros _. exists s. reflexivity.
Qed.

(** X12. On a form for which every [DataRequired] of [RegisterForm]
    passes, a registration POST never raises.  It is either the duplicate rejection, the tables unchanged,
    or a registration that appends exactly one user with the submitted
    email and logs that user in. *)
Theorem register_validated_form (rnd : nat -> nat) (formdata : Form) (w : World) :
  validate RegisterForm formdata = true ->
  let out := full_dispatch_request (mkRequest url_register POST formdata rnd) w in
  (world out = w /\ flashed out = [duplicate_notice]
   /\ response out = redirect "login")
  \/ (exists new_user,
        users (db (world out)) = (users (db w) ++ [new_user])%list
        /\ field_data "email" formdata = Some (User.email new_user)
        /\ session (world out) = Some (User.id new_user)
        /\ response out = redirect "home").
Proof.
  unfold validate, RegisterForm. simpl. intros Hvalid.
  repeat (apply andb_true_iff in Hvalid; destruct Hvalid as [? Hvalid]).
  repeat match goal with
         | H : DataRequired _ = true |- _ => apply DataRequired_Some in H
         end.
  destruct H as [fn Hfn], H0 as [ln Hln], H1 as [e He], H2 as [pw Hpw].
  rewrite full_dispatch_register.
  destruct (first (User_filter_by_email (db w) (Some e))) as [user|] eqn:Hfound.
  - left. rewrite <- He in Hfound.
    rewrite (register_POST_duplicate rnd formdata w user Hfound).
    repeat split.
  - right.
    rewrite (register_POST_fresh rnd formdata w fn ln e pw Hfn Hln He Hpw Hfound).
    exists (registered_user (db w) rnd fn ln e pw). simpl.
    split; [reflexivity|]. split; [exact He|]. split; reflexivity.
Qed.

(** ** Who the session resolves to *)

(** X13. A successful login logs the caller in as the account whose
    email was submitted: when user ids are unique and a login POST is
    answered with the redirect to [home], the user found by that email is
    the [current_user] of the resulting session, and the next GET of
    [/home] lists that user's tasks. *)
Theorem login_resolves_to_account (w : World) (formdata : Form) (rnd : nat -> nat) :
  unique_user_ids (db w) ->
  let out := full_dispatch_request (mkRequest url_login POST formdata rnd) w in
  response out = redirect "home" ->
  exists user,
    first (User_filter_by_email (db w) (field_data "email" formdata)) = Some user
    /\ current_user (world out) = Some user
    /\ forall formdata' rnd',
         full_dispatch_request (mkRequest url_home GET formdata' rnd') (world out)
         = mkOutcome (world out) []
             (render_template "index.html" (Some user)
                (ToDoList_filter_by_author_id (db w) (User.id user))).
Proof.
  intros Hids out Hresp. subst out. rewrite full_dispatch_login in Hresp |- *.
  destruct (login_POST_redirect_home _ _ Hresp) as [user [Hfound [_ Hout]]].
  exists user. split; [exact Hfound|]. rewrite Hout. cbn [world].
  apply first_filter_by_email_In in Hfound. destruct Hfound as [Hin _].
  destruct (current_user_login_user w user Hin) as [u [Hu Hid]].
  assert (Heq : u = user).
  { apply (NoDup_map_id_eq User.id (users (db w))); try assumption.
    apply (current_user_In _ _ Hu). }
  subst u. split; [exact Hu|]. intros formdata' rnd'.
  apply (home_GET _ user formdata' rnd' Hu).
Qed.

(** X14. A session naming an id that no row of [users] carries is
    treated as anonymous: [load_user] finds nobody, and the protected
    routes answer with the notice "Please Login" and the redirect to
    [login], the world unchanged. *)
Theorem stale_session_is_anonymous (w : World) (uid : nat) :
  session w = Some uid ->
  ~ In uid (map User.id (users (db w))) ->
  load_user (db w) uid = None
  /\ current_user w = None
  /\ (forall m formdata rnd,
        full_dispatch_request (mkRequest url_home m formdata rnd) w
        = mkOutcome w ["Please Login"] (redirect "login"))
  /\ (forall item_id formdata rnd,
        full_dispatch_request
          (mkRequest (url_deleteToDoListItem item_id) GET formdata rnd) w
        = mkOutcome w ["Please Login"] (redirect "login")).
Proof.
  intros Hsession Hstale.
  assert (Hload : load_user (db w) uid = None).
  { unfold load_user. destruct (User_get (db w) uid) as [u|] eqn:E; [|reflexivity].
    exfalso. apply User_get_In in E. destruct E as [Hin Hid].
    apply Hstale. rewrite <- Hid. apply in_map. assumption. }
  assert (Hanon : current_user w = None).
  { unfold current_user. rewrite Hsession. exact Hload. }
  split; [exact Hload|]. split; [exact Hanon|]. split.
  - intros m formdata rnd. unfold full_dispatch_request, dispatch_request; simpl.
    rewrite (login_required_anonymous _ _ Hanon). reflexivity.
  - intros item_id formdata rnd.
    unfold full_dispatch_request, dispatch_request; simpl.
    rewrite (login_required_anonymous _ _ Hanon). reflexivity.
Qed.

(** ** What a request can do to the tasks *)

(** X17. Tasks are never edited in place and vanish only through the
    delete URL: after any single request every row of [todolist] is
    either a row that was already there or the one row just created by
    the current user, and unless the request is a GET of
    [/deleteToDoListItem/<id>] every earlier row is still there. *)
Theorem tasks_change_only_by_create_or_delete (rq : Request) (w : World) :
  let d' := db (world (full_dispatch_request rq w)) in
  (forall t, In t (todolist d') ->
     In t (todolist (db w))
     \/ exists cu,
          current_user w = Some cu
          /\ req_url rq = url_home /\ req_method rq = POST
          /\ ToDoList.author_id t = User.id cu
          /\ field_data "content" (req_form rq) = Some (ToDoList.content t)
          /\ field_data "date" (req_form rq) = Some (ToDoList.date t)
          /\ ~ In (ToDoList.id t) (map ToDoList.id (todolist (db w))))
  /\ ((forall item_id, req_url rq <> url_deleteToDoListItem item_id) ->
      forall t, In t (todolist (db w)) -> In t (todolist d')).
Proof.
  simpl. rewrite world_full_dispatch.
  destruct rq as [url m formdata rnd]. unfold dispatch_request; simpl.
  assert (Hsame : forall d : Database,
            todolist d = todolist (db w) ->
            (forall t, In t (todolist d) ->
               In t (todolist (db w))
               \/ exists cu,
                    current_user w = Some cu
                    /\ url = url_home /\ m = POST
                    /\ ToDoList.author_id t = User.id cu
                    /\ field_data "content" formdata = Some (ToDoList.content t)
                    /\ field_data "date" formdata = Some (ToDoList.date t)
                    /\ ~ In (ToDoList.id t) (map ToDoList.id (todolist (db w))))
            /\ ((forall item_id, url <> url_deleteToDoListItem item_id) ->
                forall t, In t (todolist (db w)) -> In t (todolist d))).
  { intros d ->. split; [intros t Ht; left; exact Ht | intros _ t Ht; exact Ht]. }
  destruct url as [| | | |item_id].
  - unfold login_required, home.
    destruct (current_user w) as [cu|] eqn:Hcu; [|apply Hsame; reflexivity].
    destruct m; [apply Hsame; reflexivity|].
    destruct (add_commit_ToDoList _ _ _ _) as [[d' item]|e] eqn:E;
      [|apply Hsame; reflexivity].
    apply add_commit_ToDoList_Ok in E.
    destruct E as [c [dt [Hc [Hdt [Hitem ->]]]]]. simpl. split.
    + intros t Ht. apply in_app_or in Ht. destruct Ht as [Ht|[<-|[]]].
      * left. exact Ht.
      * right. exists cu. subst item. simpl.
        repeat (split; [first [reflexivity | assumption]|]).
        apply next_rowid_fresh.
    + intros _ t Ht. apply in_or_app. left. exact Ht.
  - apply Hsame. unfold register. destruct m; [reflexivity|].
    destruct (first _) as [user|]; [reflexivity|].
    destruct (generate_password_hash rnd _ _ _) as [pwhash|e]; simpl;
      [|reflexivity].
    destruct (add_commit_User _ _ _ _ _) as [[d' new_user]|e] eqn:E;
      [|reflexivity].
    apply add_commit_User_Ok in E. destruct E as [_ [Htodo _]]. exact Htodo.
  - apply Hsame. unfold login. destruct m; [reflexivity|].
    destruct (first _) as [user|]; [|reflexivity].
    destruct (check_password_hash _ _) as [[|]|e]; reflexivity.
  - apply Hsame. destruct m; reflexivity.
  - destruct m; [|apply Hsame; reflexivity].
    unfold login_required, deleteToDoListItem.
    destruct (current_user w) as [cu|]; [|apply Hsame; reflexivity].
    destruct (ToDoList_get (db w) item_id) as [t0|]; [|apply Hsame; reflexivity].
    simpl. split.
    + intros t Ht. left. apply filter_In in Ht. apply Ht.
    + intros Hnot. exfalso. apply (Hnot item_id). reflexivity.
Qed.

End Website.

(** * The theorems at concrete requests *)

Lemma email_uniqueness_invariant_witness :
  let sv0 := mkServer empty_db (fun _ => None) in
  let post form := mkRequest url_register POST form no_random in
  let sv1 := run example_pbkdf2_hmac example_iterations sv0 [(0, post alice_form)] in
  unique_emails (store sv0)
  /\ map User.email (users (store sv1)) = ["alice@x.com"]
  /\ snd (serve example_pbkdf2_hmac example_iterations sv1 7 (post alice_form))
     = mkOutcome (mkWorld (store sv1) None) [duplicate_notice] (redirect "login").
Proof.
  intros sv0 post sv1.
  assert (H0 : unique_emails (store sv0)) by constructor.
  split; [exact H0|]. split; [reflexivity|].
  destruct (email_uniqueness_invariant example_pbkdf2_hmac example_iterations
              sv0 [(0, post alice_form)] H0) as [_ [_ [Hdup _]]].
  refine (proj1 (Hdup 7 alice_form no_random
                   (registered_user example_pbkdf2_hmac example_iterations
                      empty_db no_random "Alice" "Liddell" "alice@x.com" "pw1")
                   _)).
  reflexivity.
Defined.

Lemma delete_task_unconditional_witness :
  let as_bob := mkWorld example_db (Some 2) in
  let out :=
    full_dispatch_request example_pbkdf2_hmac example_iterations
      (mkRequest (url_deleteToDoListItem 1) GET [] no_random) as_bob in
  unique_task_ids example_db
  /\ current_user as_bob = Some bob
  /\ In milk (todolist example_db)
  /\ ToDoList.author_id milk <> User.id bob
  /\ response out = redirect "home"
  /\ todolist (db (world out)) = [bread].
Proof.
  intros as_bob out.
  assert (H1 : unique_task_ids example_db) by (unfold unique_task_ids; simpl; distinct).
  assert (H2 : current_user as_bob = Some bob) by reflexivity.
  assert (H3 : In milk (todolist (db as_bob))) by (left; reflexivity).
  split; [exact H1|]. split; [exact H2|]. split; [exact H3|].
  split; [discriminate|].
  split; [|reflexivity].
  exact (proj1 (delete_task_unconditional example_pbkdf2_hmac example_iterations
                  as_bob bob milk [] no_random H1 H2 H3)).
Defined.


Lemma login_failure_branches_witness :
  let w := mkWorld example_db None in
  let post form :=
    full_dispatch_request example_pbkdf2_hmac example_iterations
      (mkRequest url_login POST form no_random) w in
  post [("email", "carol@x.com"); ("password", "pw1")]
  = mkOutcome w ["Please register to use our services"] (redirect "register")
  /\ post [("email", "alice@x.com"); ("password", "wrong")]
     = mkOutcome w ["Password enter is incorrect. Please try again."]
         (render_template "login.html" None [])
  /\ post alice_login_form
     = mkOutcome (mkWorld example_db (Some 1)) [] (redirect "home").
Proof.
  intros w post. split; [|split].
  - exact (proj1 (login_failure_branches example_pbkdf2_hmac example_iterations
                    w [("email", "carol@x.com"); ("password", "pw1")] no_random)
             eq_refl).
  - exact (proj1 (proj2 (login_failure_branches example_pbkdf2_hmac
                           example_iterations
                           w [("email", "alice@x.com"); ("password", "wrong")]
                           no_random))
             alice eq_refl eq_refl).
  - exact (proj1 (proj2 (proj2 (login_failure_branches example_pbkdf2_hmac
                                  example_iterations w alice_login_form
                                  no_random)))
             alice eq_refl eq_refl).
Defined.

Lemma credential_round_trip_witness :
  let w := mkWorld empty_db None in
  let registered :=
    full_dispatch_request example_pbkdf2_hmac example_iterations
      (mkRequest url_register POST alice_form no_random) w in
  users (db (world registered)) = [alice]
  /\ check_password_hash example_pbkdf2_hmac example_iterations
       (User.password alice) (Some "pw1") = Ok true
  /\ check_password_hash example_pbkdf2_hmac example_iterations
       (User.password alice) (Some "pw2") = Ok false
  /\ full_dispatch_request example_pbkdf2_hmac example_iterations
       (mkRequest url_login POST alice_login_form no_random)
       (mkWorld (db (world registered)) None)
     = mkOutcome (mkWorld (mkDatabase [alice] []) (Some 1)) [] (redirect "home").
Proof.
  intros w registered. split; [reflexivity|].
  destruct (credential_round_trip example_pbkdf2_hmac example_iterations
              no_random "pw1") as [token [Hgen [Hok [_ [Hwrong Hlogin]]]]].
  injection Hgen as <-.
  split; [exact Hok|]. split; [apply Hwrong; discriminate|].
  exact (proj1 (Hlogin w alice_form "Alice" "Liddell" "alice@x.com"
                  eq_refl eq_refl eq_refl eq_refl eq_refl
                  (mkWorld (db (world registered)) None) alice_login_form
                  no_random eq_refl eq_refl eq_refl)).
Defined.

Lemma listing_owner_only_witness :
  let as_alice := mkWorld example_db (Some 1) in
  let as_bob := mkWorld example_db (Some 2) in
  let get w :=
    full_dispatch_request example_pbkdf2_hmac example_iterations
      (mkRequest url_home GET [] no_random) w in
  current_user as_alice = Some alice
  /\ get as_alice
     = mkOutcome as_alice [] (render_template "index.html" (Some alice) [milk; bread])
  /\ get as_bob
     = mkOutcome as_bob [] (render_template "index.html" (Some bob) []).
Proof.
  intros as_alice as_bob get.
  assert (Ha : current_user as_alice = Some alice) by reflexivity.
  split; [exact Ha|].
  destruct (listing_owner_only example_pbkdf2_hmac example_iterations
              as_alice alice [] no_random Ha) as [[items [Hget [Hitems _]]] _].
  split; [|reflexivity].
  unfold get. rewrite Hget, Hitems. reflexivity.
Defined.

Lemma anonymous_request_intercepted_witness :
  let w := mkWorld example_db None in
  let ask url m form :=
    full_dispatch_request example_pbkdf2_hmac example_iterations
      (mkRequest url m form no_random) in
  current_user w = None
  /\ ask url_home GET [] w = mkOutcome w ["Please Login"] (redirect "login")
  /\ ask url_home POST [("content", "x"); ("date", "y")] w
     = mkOutcome w ["Please Login"] (redirect "login")
  /\ ask (url_deleteToDoListItem 1) GET [] w
     = mkOutcome w ["Please Login"] (redirect "login")
  /\ response (ask url_login POST alice_login_form w) = redirect "home"
  /\ ask url_home GET [] (world (ask url_login POST alice_login_form w))
     = mkOutcome (mkWorld example_db (Some 1)) []
         (render_template "index.html" (Some alice) [milk; bread]).
Proof.
  intros w ask.
  assert (H : current_user w = None) by reflexivity.
  split; [exact H|].
  destruct (anonymous_request_intercepted example_pbkdf2_hmac example_iterations
              w H) as [_ [Hhome [Hdel Hlogin]]].
  split; [apply Hhome|]. split; [apply Hhome|]. split; [apply Hdel|].
  split; [reflexivity|].
  destruct (Hlogin alice_login_form no_random [] no_random eq_refl) as [user Huser].
  reflexivity.
Defined.


(** The walk-through of the specification: Alice registers, logs in,
    adds a task, sees exactly that task, deletes it and sees none. *)
Example alice_scenario :
  let ask url m form := (0, mkRequest url m form no_random) in
  let start := mkServer empty_db (fun _ => None) in
  let go := run example_pbkdf2_hmac example_iterations in
  let page sv :=
    response (snd (serve example_pbkdf2_hmac example_iterations sv 0
                     (mkRequest url_home GET [] no_random))) in
  let sv1 :=
    go start
      [ask url_register POST alice_form;
       ask url_logout GET [];
       ask url_login POST alice_login_form;
       ask url_home POST [("content", "Buy milk"); ("date", "2024-01-01")]] in
  page sv1 = render_template "index.html" (Some alice) [milk]
  /\ page (go sv1 [ask (url_deleteToDoListItem 1) GET []])
     = render_template "index.html" (Some alice) [].
Proof. split; reflexivity. Qed.

(** ** The further properties at concrete requests *)

Lemma create_task_appends_witness :
  let as_bob := mkWorld example_db (Some 2) in
  let form : Form := [("content", "Call Alice"); ("date", "2024-02-01")] in
  let out :=
    full_dispatch_request example_pbkdf2_hmac example_iterations
      (mkRequest url_home POST form no_random) as_bob in
  current_user as_bob = Some bob
  /\ todolist (db (world out))
     = [milk; bread; ToDoList.mk 3 "Call Alice" "2024-02-01" 2]
  /\ response out = redirect "home".
Proof.
  intros as_bob form out.
  assert (H : current_user as_bob = Some bob) by reflexivity.
  split; [exact H|].
  pose proof (proj1 (create_task_appends example_pbkdf2_hmac example_iterations
                       as_bob bob form no_random "Call Alice" "2024-02-01"
                       H eq_refl eq_refl)) as Hout.
  fold out in Hout. rewrite Hout. split; reflexivity.
Defined.

Lemma create_then_delete_restores_witness :
  let as_bob := mkWorld example_db (Some 2) in
  let form : Form := [("content", "Call Alice"); ("date", "2024-02-01")] in
  let created :=
    world (full_dispatch_request example_pbkdf2_hmac example_iterations
             (mkRequest url_home POST form no_random) as_bob) in
  current_user as_bob = Some bob
  /\ full_dispatch_request example_pbkdf2_hmac example_iterations
       (mkRequest (url_deleteToDoListItem 3) GET [] no_random) created
     = mkOutcome as_bob [] (redirect "home").
Proof.
  intros as_bob form created.
  assert (H : current_user as_bob = Some bob) by reflexivity.
  split; [exact H|].
  exact (create_then_delete_restores example_pbkdf2_hmac example_iterations
           as_bob bob form no_random "Call Alice" "2024-02-01"
           H eq_refl eq_refl [] no_random).
Defined.

Lemma registered_account_persists_witness :
  let sv := mkServer example_db (fun _ => None) in
  let trace :=
    [(5, mkRequest url_register POST
           [("first_name", "Carol"); ("last_name", "C");
            ("email", "carol@x.com"); ("password", "pw3")] no_random);
     (5, mkRequest url_home POST [("content", "x"); ("date", "y")] no_random)] in
  let sv1 := run example_pbkdf2_hmac example_iterations sv trace in
  first (User_filter_by_email example_db (Some "alice@x.com")) = Some alice
  /\ length (users (store sv1)) = 3
  /\ snd (serve example_pbkdf2_hmac example_iterations sv1 0
            (mkRequest url_login POST alice_login_form no_random))
     = mkOutcome (mkWorld (store sv1) (Some 1)) [] (redirect "home").
Proof.
  intros sv trace sv1.
  assert (H : first (User_filter_by_email (store sv) (Some (User.email alice)))
              = Some alice) by reflexivity.
  split; [exact H|]. split; [reflexivity|].
  exact (proj1 (registered_account_persists example_pbkdf2_hmac
                  example_iterations sv trace alice no_random "pw1" 0
                  alice_login_form no_random H eq_refl eq_refl eq_refl)).
Defined.

Lemma session_survives_other_clients_witness :
  let sv := mkServer example_db (fun c => if Nat.eqb c 0 then Some 1 else None) in
  let trace :=
    [(5, mkRequest url_register POST
           [("first_name", "Carol"); ("last_name", "C");
            ("email", "carol@x.com"); ("password", "pw3")] no_random);
     (7, mkRequest url_login POST [("email", "bob@x.com"); ("password", "pw2")]
           no_random);
     (7, mkRequest (url_deleteToDoListItem 2) GET [] no_random)] in
  let sv1 := run example_pbkdf2_hmac example_iterations sv trace in
  current_user (mkWorld (store sv) (cookies sv 0)) = Some alice
  /\ Forall (fun step : nat * Request => fst step <> 0) trace
  /\ current_user (mkWorld (store sv1) (cookies sv1 0)) = Some alice
  /\ todolist (store sv1) = [milk].
Proof.
  intros sv trace sv1.
  assert (H1 : current_user (mkWorld (store sv) (cookies sv 0)) = Some alice)
    by reflexivity.
  assert (H2 : Forall (fun step : nat * Request => fst step <> 0) trace)
    by (repeat constructor; discriminate).
  split; [exact H1|]. split; [exact H2|]. split; [|reflexivity].
  exact (proj1 (session_survives_other_clients example_pbkdf2_hmac
                  example_iterations sv trace 0 alice H1 H2)).
Defined.

Lemma run_authors_exist_witness :
  let sv := mkServer example_db (fun _ => Some 2) in
  let trace :=
    [(0, mkRequest url_home POST [("content", "x"); ("date", "y")] no_random);
     (0, mkRequest (url_deleteToDoListItem 1) GET [] no_random)] in
  authors_exist example_db
  /\ map ToDoList.author_id
       (todolist (store (run example_pbkdf2_hmac example_iterations sv trace)))
     = [1; 2]
  /\ authors_exist (store (run example_pbkdf2_hmac example_iterations sv trace)).
Proof.
  intros sv trace.
  assert (H : authors_exist (store sv)).
  { intros t [<-|[<-|[]]]; simpl; auto. }
  split; [exact H|]. split; [reflexivity|].
  exact (run_authors_exist example_pbkdf2_hmac example_iterations trace sv H).
Defined.

Lemma delete_twice_raises_witness :
  let as_bob := mkWorld example_db (Some 2) in
  let rq := mkRequest (url_deleteToDoListItem 1) GET [] no_random in
  let w1 :=
    world (full_dispatch_request example_pbkdf2_hmac example_iterations rq as_bob) in
  current_user as_bob = Some bob
  /\ In milk (todolist example_db)
  /\ todolist (db w1) = [bread]
  /\ full_dispatch_request example_pbkdf2_hmac example_iterations rq w1
     = mkOutcome w1 [] (server_error UnmappedInstanceError).
Proof.
  intros as_bob rq w1.
  assert (H1 : current_user as_bob = Some bob) by reflexivity.
  assert (H2 : In milk (todolist (db as_bob))) by (left; reflexivity).
  split; [exact H1|]. split; [exact H2|]. split; [reflexivity|].
  exact (proj2 (delete_twice_raises example_pbkdf2_hmac example_iterations
                  as_bob bob milk [] no_random H1 H2)).
Defined.

Lemma register_missing_field_witness :
  let w := mkWorld example_db None in
  let no_password : Form :=
    [("first_name", "Carol"); ("last_name", "C"); ("email", "carol@x.com")] in
  let no_name : Form :=
    [("last_name", "C"); ("email", "carol@x.com"); ("password", "pw3")] in
  let post form :=
    full_dispatch_request example_pbkdf2_hmac example_iterations
      (mkRequest url_register POST form no_random) w in
  field_data "password" no_password = None
  /\ field_data "first_name" no_name = None
  /\ world (post no_password) = w
  /\ response (post no_password) = server_error AttributeError
  /\ response (post no_name) = server_error IntegrityError.
Proof.
  intros w no_password no_name post.
  split; [reflexivity|]. split; [reflexivity|].
  destruct (register_missing_field example_pbkdf2_hmac example_iterations
              no_random no_password w
              (or_intror (or_intror (or_intror eq_refl))))
    as [Hworld [_ Hp]].
  destruct (register_missing_field example_pbkdf2_hmac example_iterations
              no_random no_name w (or_introl eq_refl))
    as [_ [_ Hn]].
  split; [exact Hworld|].
  split; [exact (proj2 (Hp eq_refl)) | exact (proj2 (Hn eq_refl))].
Defined.

Lemma create_task_missing_field_witness :
  let as_alice := mkWorld example_db (Some 1) in
  let form : Form := [("content", "Buy eggs")] in
  current_user as_alice = Some alice
  /\ field_data "date" form = None
  /\ full_dispatch_request example_pbkdf2_hmac example_iterations
       (mkRequest url_home POST form no_random) as_alice
     = mkOutcome as_alice [] (server_error IntegrityError).
Proof.
  intros as_alice form.
  assert (H1 : current_user as_alice = Some alice) by reflexivity.
  assert (H2 : field_data "date" form = None) by reflexivity.
  split; [exact H1|]. split; [exact H2|].
  exact (create_task_missing_field example_pbkdf2_hmac example_iterations
           as_alice alice form no_random H1 (or_intror H2)).
Defined.

Lemma example_db_hashed :
  hashed_passwords example_pbkdf2_hmac example_iterations example_db.
Proof.
  intros u [<-|[<-|[]]].
  - exists no_random, "pw1". reflexivity.
  - exists no_random, "pw2". reflexivity.
Defined.

Lemma login_missing_password_witness :
  let w := mkWorld example_db None in
  let form : Form := [("email", "alice@x.com")] in
  hashed_passwords example_pbkdf2_hmac example_iterations example_db
  /\ field_data "password" form = None
  /\ full_dispatch_request example_pbkdf2_hmac example_iterations
       (mkRequest url_login POST form no_random) w
     = mkOutcome w [] (server_error AttributeError).
Proof.
  intros w form.
  split; [exact example_db_hashed|]. split; [reflexivity|].
  refine (proj2 (proj2 (login_missing_password example_pbkdf2_hmac
                          example_iterations w form no_random
                          example_db_hashed eq_refl)) _).
  discriminate.
Defined.

Lemma register_validated_form_witness :
  let w := mkWorld example_db None in
  let form : Form :=
    [("first_name", "Carol"); ("last_name", "C");
     ("email", "carol@x.com"); ("password", "pw3")] in
  let post f :=
    full_dispatch_request example_pbkdf2_hmac example_iterations
      (mkRequest url_register POST f no_random) w in
  validate RegisterForm form = true
  /\ validate RegisterForm alice_form = true
  /\ response (post form) = redirect "home"
  /\ response (post alice_form) = redirect "login".
Proof.
  intros w form post.
  assert (H1 : validate RegisterForm form = true) by reflexivity.
  assert (H2 : validate RegisterForm alice_form = true) by reflexivity.
  split; [exact H1|]. split; [exact H2|].
  split.
  - destruct (register_validated_form example_pbkdf2_hmac example_iterations
                no_random form w H1)
      as [[_ [_ Hr]]|[new_user [_ [_ [_ Hr]]]]];
      [discriminate Hr | exact Hr].
  - destruct (register_validated_form example_pbkdf2_hmac example_iterations
                no_random alice_form w H2)
      as [[_ [_ Hr]]|[new_user [_ [_ [_ Hr]]]]];
      [exact Hr | discriminate Hr].
Defined.

Lemma login_resolves_to_account_witness :
  let w := mkWorld example_db (Some 1) in
  let out :=
    full_dispatch_request example_pbkdf2_hmac example_iterations
      (mkRequest url_login POST [("email", "bob@x.com"); ("password", "pw2")]
         no_random) w in
  unique_user_ids example_db
  /\ response out = redirect "home"
  /\ current_user (world out) = Some bob.
Proof.
  intros w out.
  assert (H1 : unique_user_ids (db w)) by (unfold unique_user_ids; simpl; distinct).
  assert (H2 : response out = redirect "home") by reflexivity.
  split; [exact H1|]. split; [exact H2|].
  destruct (login_resolves_to_account example_pbkdf2_hmac example_iterations
              w [("email", "bob@x.com"); ("password", "pw2")] no_random H1 H2)
    as [user [Hfound [Hcu _]]].
  change (Some bob = Some user) in Hfound. injection Hfound as <-.
  exact Hcu.
Defined.

Lemma stale_session_is_anonymous_witness :
  let w := mkWorld example_db (Some 9) in
  session w = Some 9
  /\ ~ In 9 (map User.id (users example_db))
  /\ full_dispatch_request example_pbkdf2_hmac example_iterations
       (mkRequest url_home GET [] no_random) w
     = mkOutcome w ["Please Login"] (redirect "login").
Proof.
  intros w.
  assert (H1 : session w = Some 9) by reflexivity.
  assert (H2 : ~ In 9 (map User.id (users (db w))))
    by (simpl; intuition discriminate).
  split; [exact H1|]. split; [exact H2|].
  destruct (stale_session_is_anonymous example_pbkdf2_hmac example_iterations
              w 9 H1 H2) as [_ [_ [Hhome _]]].
  apply Hhome.
Defined.

Lemma run_primary_keys_witness :
  let sv := mkServer example_db (fun _ => Some 1) in
  let trace :=
    [(0, mkRequest (url_deleteToDoListItem 2) GET [] no_random);
     (0, mkRequest url_home POST [("content", "x"); ("date", "y")] no_random);
     (3, mkRequest url_register POST
           [("first_name", "Carol"); ("last_name", "C");
            ("email", "carol@x.com"); ("password", "pw3")] no_random)] in
  let sv1 := run example_pbkdf2_hmac example_iterations sv trace in
  (unique_user_ids example_db /\ unique_task_ids example_db)
  /\ map User.id (users (store sv1)) = [1; 2; 3]
  /\ map ToDoList.id (todolist (store sv1)) = [1; 2]
  /\ unique_user_ids (store sv1) /\ unique_task_ids (store sv1).
Proof.
  intros sv trace sv1.
  assert (H : unique_user_ids (store sv) /\ unique_task_ids (store sv)).
  { split; [unfold unique_user_ids | unfold unique_task_ids]; simpl; distinct. }
  split; [exact H|]. split; [reflexivity|]. split; [reflexivity|].
  exact (run_primary_keys example_pbkdf2_hmac example_iterations trace sv H).
Defined.

Lemma run_hashed_passwords_witness :
  let sv := mkServer example_db (fun _ => None) in
  let trace :=
    [(3, mkRequest url_register POST
           [("first_name", "Carol"); ("last_name", "C");
            ("email", "carol@x.com"); ("password", "pw3")] no_random)] in
  let sv1 := run example_pbkdf2_hmac example_iterations sv trace in
  hashed_passwords example_pbkdf2_hmac example_iterations example_db
  /\ map User.password (users (store sv1))
     = [User.password alice; User.password bob;
        "pbkdf2:sha256:600000$aaaaaaaa$sha256(aaaaaaaa,pw3)"]
  /\ hashed_passwords example_pbkdf2_hmac example_iterations (store sv1).
Proof.
  intros sv trace sv1.
  split; [exact example_db_hashed|]. split; [reflexivity|].
  exact (run_hashed_passwords example_pbkdf2_hmac example_iterations trace sv
           example_db_hashed).
Defined.

Lemma tasks_change_only_by_create_or_delete_witness :
  let as_bob := mkWorld example_db (Some 2) in
  let rq := mkRequest url_logout GET [] no_random in
  let d' :=
    db (world (full_dispatch_request example_pbkdf2_hmac example_iterations
                 rq as_bob)) in
  (forall item_id, req_url rq <> url_deleteToDoListItem item_id)
  /\ In milk (todolist d') /\ In bread (todolist d').
Proof.
  intros as_bob rq d'.
  assert (H : forall item_id, req_url rq <> url_deleteToDoListItem item_id)
    by (intros item_id; discriminate).
  split; [exact H|].
  pose proof (proj2 (tasks_change_only_by_create_or_delete example_pbkdf2_hmac
                       example_iterations rq as_bob) H) as Hkept.
  split; apply Hkept; simpl; auto.
Defined.
